(** * void.bookkeeper: the OCR statement scanner

    A shallow embedding of the text-reconstruction logic of
    [src/extract_with_ocr.py] (the plain variant, module [Raw]) and of
    [src/_src/extract_with_ocr.py] (the period-aware variant, module
    [Dated]): [extract_statement_metadata], [extract_transactions] and
    [convert_mm_dd_to_full_date].

    Python [str] values are modelled as [string]: one [ascii] per
    character, read as the code points 0..255 (Latin-1).  Within that
    range [\d] is [0-9], and [\s] / [str.strip] whitespace is
    U+0009..U+000D, U+001C..U+0020, U+0085 and U+00A0.

    Python exceptions are explicit ([Raise]); the two [while] loops of
    [extract_transactions] run on fuel, and exhausting it is a third
    outcome ([OutOfFuel]) that the totality theorems rule out. *)

From Stdlib Require Import String Ascii List ZArith NArith Lia Bool Arith.
From Stdlib Require Import DecimalString.
Import ListNotations.

Local Open Scope string_scope.
Local Open Scope list_scope.
Local Open Scope nat_scope.

(** ** Outcomes of Python code *)

Inductive exn : Type :=
| IndexError
| ValueError.

Inductive result (A : Type) : Type :=
| Ok (a : A)
| Raise (e : exn)
| OutOfFuel.

Arguments Ok {A} a.
Arguments Raise {A} e.
Arguments OutOfFuel {A}.

Definition bind {A B : Type} (c : result A) (k : A -> result B) : result B :=
  match c with
  | Ok a => k a
  | Raise e => Raise e
  | OutOfFuel => OutOfFuel
  end.

Notation "x <- c ;; k" := (bind c (fun x => k))
  (at level 61, c at next level, right associativity).
Notation "' p <- c ;; k" := (bind c (fun x => let 'p := x in k))
  (at level 61, p pattern, c at next level, right associativity).

(** [try: body except: handler] with a bare [except]. *)
Definition try_except {A : Type} (body : result A) (handler : result A)
  : result A :=
  match body with
  | Raise _ => handler
  | r => r
  end.

(** [xs[i]] *)
Definition get {A : Type} (xs : list A) (i : nat) : result A :=
  match nth_error xs i with
  | Some x => Ok x
  | None => Raise IndexError
  end.

(** [range(a, b)] *)
Definition range (a b : nat) : list nat := seq a (b - a).

(** ** Characters and strings *)

Definition code (c : ascii) : N := N_of_ascii c.

Definition between (lo hi : N) (c : ascii) : bool :=
  ((lo <=? code c) && (code c <=? hi))%N.

(** [\d] *)
Definition is_digit (c : ascii) : bool := between 48 57 c.

(** [\s], and the characters [str.strip()] removes *)
Definition is_space (c : ascii) : bool :=
  between 9 13 c || between 28 32 c || (code c =? 133)%N || (code c =? 160)%N.

Definition lower_char (c : ascii) : ascii :=
  if between 65 90 c
     || (between 192 222 c && negb (code c =? 215)%N)
  then ascii_of_N (code c + 32)
  else c.

(** [s.lower()] *)
Fixpoint lower (s : string) : string :=
  match s with
  | EmptyString => EmptyString
  | String c r => String (lower_char c) (lower r)
  end.

(** truth value of a [str], and of a [str] or [None] *)
Definition truthy (s : string) : bool :=
  match s with
  | EmptyString => false
  | String _ _ => true
  end.

Definition truthy_opt (o : option string) : bool :=
  match o with
  | Some s => truthy s
  | None => false
  end.

Fixpoint lstrip (s : string) : string :=
  match s with
  | EmptyString => EmptyString
  | String c r => if is_space c then lstrip r else s
  end.

Fixpoint rstrip (s : string) : string :=
  match s with
  | EmptyString => EmptyString
  | String c r =>
      let r' := rstrip r in
      if is_space c && negb (truthy r') then EmptyString else String c r'
  end.

(** [s.strip()] *)
Definition strip (s : string) : string := rstrip (lstrip s).

(** [s.split(sep)] for a one-character separator *)
Fixpoint split (sep : ascii) (s : string) : list string :=
  match s with
  | EmptyString => [EmptyString]
  | String c r =>
      if Ascii.eqb c sep then EmptyString :: split sep r
      else match split sep r with
           | h :: t => String c h :: t
           | [] => [String c EmptyString]
           end
  end.

(** [sep.join(parts)] *)
Fixpoint join (sep : string) (parts : list string) : string :=
  match parts with
  | [] => EmptyString
  | [p] => p
  | p :: rest => p ++ sep ++ join sep rest
  end.

(** [needle in hay] *)
Fixpoint contains (needle hay : string) : bool :=
  prefix needle hay ||
  match hay with
  | EmptyString => false
  | String _ r => contains needle r
  end.

Definition newline : ascii := ascii_of_N 10.

(** [[line.strip() for line in text.split('\n')]] *)
Definition py_lines (text : string) : list string :=
  map strip (split newline text).

(** ** The regular expressions *)

(** [$] without [re.MULTILINE]: the end of the string, or just before a
    newline that ends it. *)
Definition at_end (s : string) : bool :=
  match s with
  | EmptyString => true
  | String c EmptyString => Ascii.eqb c newline
  | _ => false
  end.

(** [re.match(r'^\d{2}/\d{2}$', s)] *)
Definition is_date_token (s : string) : bool :=
  match s with
  | String a (String b (String sl (String c (String d r)))) =>
      is_digit a && is_digit b && Ascii.eqb sl "/"
      && is_digit c && is_digit d && at_end r
  | _ => false
  end.

(** [[-+]?] *)
Definition opt_sign (s : string) : string :=
  match s with
  | String c r => if Ascii.eqb c "-" || Ascii.eqb c "+" then r else s
  | EmptyString => s
  end.

(** [\s*] *)
Fixpoint spaces (s : string) : string :=
  match s with
  | String c r => if is_space c then spaces r else s
  | EmptyString => s
  end.

(** [\s+] *)
Definition spaces1 (s : string) : option string :=
  match s with
  | String c r => if is_space c then Some (spaces r) else None
  | EmptyString => None
  end.

(** [[\d,]*]; no character of the class can start what follows it in the
    patterns below, so the greedy run is the only candidate. *)
Fixpoint digits_commas (s : string) : string :=
  match s with
  | String c r =>
      if is_digit c || Ascii.eqb c "," then digits_commas r else s
  | EmptyString => s
  end.

(** [[\d,]+] *)
Definition digits_commas1 (s : string) : option string :=
  match s with
  | String c r =>
      if is_digit c || Ascii.eqb c "," then Some (digits_commas r) else None
  | EmptyString => None
  end.

(** [re.match(r'^[-+]?\s*[\d,]+\.\d{2}$', s)] *)
Definition is_money_token (s : string) : bool :=
  match digits_commas1 (spaces (opt_sign s)) with
  | Some (String p (String a (String b r))) =>
      Ascii.eqb p "." && is_digit a && is_digit b && at_end r
  | _ => false
  end.

(** what [$] leaves out of the match *)
Fixpoint chomp (s : string) : string :=
  match s with
  | EmptyString => EmptyString
  | String c EmptyString =>
      if Ascii.eqb c newline then EmptyString else s
  | String c r => String c (chomp r)
  end.

(** [re.match(r'^([-+]?\s*[\d,]+\.\d{2})$', s)], giving [group(1)] *)
Definition match_balance (s : string) : option string :=
  if is_money_token s then Some (chomp s) else None.

(** a literal under [re.IGNORECASE] *)
Fixpoint literal_ci (lit s : string) : option string :=
  match lit, s with
  | EmptyString, _ => Some s
  | String l lit', String c r =>
      if Ascii.eqb (lower_char c) l then literal_ci lit' r else None
  | String _ _, EmptyString => None
  end.

(** [(\d{2}\.\d{2}\.\d{4})]: the group and what follows it *)
Definition dmy_group (s : string) : option (string * string) :=
  match s with
  | String d1 (String d2 (String p1 (String m1 (String m2 (String p2
      (String y1 (String y2 (String y3 (String y4 r))))))))) =>
      if is_digit d1 && is_digit d2 && Ascii.eqb p1 "."
         && is_digit m1 && is_digit m2 && Ascii.eqb p2 "."
         && is_digit y1 && is_digit y2 && is_digit y3 && is_digit y4
      then Some (String d1 (String d2 (String p1 (String m1 (String m2
                   (String p2 (String y1 (String y2 (String y3
                      (String y4 EmptyString))))))))), r)
      else None
  | _ => None
  end.

Definition obind {A B : Type} (o : option A) (k : A -> option B) : option B :=
  match o with
  | Some a => k a
  | None => None
  end.

(** the period pattern tried at the start of [s]:
    [from\s+(\d{2}\.\d{2}\.\d{4})\s+to\s+(\d{2}\.\d{2}\.\d{4})] *)
Definition period_at (s : string) : option (string * string) :=
  obind (literal_ci "from" s) (fun s1 =>
  obind (spaces1 s1) (fun s2 =>
  obind (dmy_group s2) (fun '(g1, s3) =>
  obind (spaces1 s3) (fun s4 =>
  obind (literal_ci "to" s4) (fun s5 =>
  obind (spaces1 s5) (fun s6 =>
  obind (dmy_group s6) (fun '(g2, _) =>
  Some (g1, g2)))))))).

(** [re.search(period pattern, s, re.IGNORECASE)]: the leftmost match,
    as [(group(1), group(2))] *)
Fixpoint search_period (s : string) : option (string * string) :=
  match period_at s with
  | Some g => Some g
  | None =>
      match s with
      | EmptyString => None
      | String _ r => search_period r
      end
  end.

(** [next_line in ['Statement Page', 'Branch number', 'New balance',
    'Important notes', 'German bank code']] *)
Definition markers : list string :=
  ["Statement Page"; "Branch number"; "New balance"; "Important notes";
   "German bank code"].

Definition is_marker (s : string) : bool :=
  existsb (String.eqb s) markers.

(** ** [int()] and number formatting *)

Definition digit_val (c : ascii) : Z := Z.of_N (code c) - 48.

(** the digits of an [int] literal: single underscores may separate them *)
Fixpoint int_digits (s : string) (acc : Z) (count : nat) : option (Z * nat) :=
  match s with
  | EmptyString => Some (acc, count)
  | String c r =>
      if is_digit c then int_digits r (10 * acc + digit_val c) (S count)
      else if Ascii.eqb c "_" then
        match r with
        | String d r' =>
            if is_digit d
            then int_digits r' (10 * acc + digit_val d) (S count)
            else None
        | EmptyString => None
        end
      else None
  end.

(** CPython's default limit on the digits of a converted [str] *)
Definition int_max_str_digits : nat := 4300.

(** [int(s)]: surrounding whitespace, one optional sign, then digits;
    [None] stands for [ValueError]. *)
Definition py_int (s : string) : option Z :=
  let t := strip s in
  let '(sign, body) :=
    match t with
    | String c r =>
        if Ascii.eqb c "-" then (-1, r)
        else if Ascii.eqb c "+" then (1, r)
        else (1, t)
    | EmptyString => (1, t)
    end%Z in
  match body with
  | String c _ =>
      if is_digit c then
        match int_digits body 0 0 with
        | Some (v, count) =>
            if Nat.leb count int_max_str_digits then Some (sign * v)%Z else None
        | None => None
        end
      else None
  | EmptyString => None
  end.

Definition int (s : string) : result Z :=
  match py_int s with
  | Some z => Ok z
  | None => Raise ValueError
  end.

(** [str(n)] *)
Definition str_of_int (n : Z) : string := NilZero.string_of_int (Z.to_int n).

(** [f"{n:02d}"]: the sign counts towards the width. *)
Definition format_02d (n : Z) : string :=
  let s := str_of_int n in
  if Nat.ltb (String.length s) 2 then String "0" s else s.

(** ** Records *)

(** the dict appended to [transactions] *)
Record Transaction : Type := mkTransaction {
  booking_date : string;
  value_date : string;
  description : string;
  amount : string
}.

(** ** The parts both files share verbatim *)

(** [f"{d[2]}-{d[1]}-{d[0]}"] for [d = group.split('.')]:
    DD.MM.YYYY to YYYY-MM-DD *)
Definition ymd_of_dmy (group : string) : result string :=
  let d := split "." group in
  y <- get d 2 ;;
  m <- get d 1 ;;
  dd <- get d 0 ;;
  Ok (y ++ "-" ++ m ++ "-" ++ dd)%string.

(** [for j in js: balance_match = re.match(..., lines[j]);
    if balance_match: ... = balance_match.group(1).strip(); break] *)
Fixpoint find_balance (lines : list string) (js : list nat)
  : result (option string) :=
  match js with
  | [] => Ok None
  | j :: js' =>
      l <- get lines j ;;
      match match_balance l with
      | Some g => Ok (Some (strip g))
      | None => find_balance lines js'
      end
  end.

(** [while i < len(lines) and not lines[i]: i += 1] *)
Fixpoint skip_blank (fuel : nat) (lines : list string) (i : nat)
  : result nat :=
  match fuel with
  | O => OutOfFuel
  | S fuel' =>
      if i <? length lines then
        l <- get lines i ;;
        if negb (truthy l) then skip_blank fuel' lines (i + 1) else Ok i
      else Ok i
  end.

(** [if i >= len(lines) or not re.match(r'^\d{2}/\d{2}$', lines[i])] *)
Definition no_value_date (lines : list string) (i : nat) : result bool :=
  if length lines <=? i then Ok true
  else l <- get lines i ;; Ok (negb (is_date_token l)).

(** The body loop of a block, from [description_parts = []] and
    [amount = None]: it stops without consuming at a date token or at a
    marker, assigns [amount] at every money token, and appends every other
    non-empty line. *)
Fixpoint collect_body (fuel : nat) (lines : list string) (i : nat)
    (description_parts : list string) (amount : option string)
  : result (list string * option string * nat) :=
  match fuel with
  | O => OutOfFuel
  | S fuel' =>
      if i <? length lines then
        next_line <- get lines i ;;
        if is_date_token next_line then Ok (description_parts, amount, i)
        else if is_marker next_line then Ok (description_parts, amount, i)
        else if is_money_token next_line then
          collect_body fuel' lines (i + 1) description_parts
            (Some (strip next_line))
        else
          collect_body fuel' lines (i + 1)
            (if truthy next_line
             then description_parts ++ [next_line]
             else description_parts)
            amount
      else Ok (description_parts, amount, i)
  end.

(** [description = ' '.join(description_parts).strip()] *)
Definition description_of (description_parts : list string) : string :=
  strip (join " " description_parts).

(** * [src/extract_with_ocr.py] *)

Module Raw.

Record Metadata : Type := mkMetadata {
  statement_date : option string;
  period_from : option string;
  period_to : option string;
  opening_balance : option string;
  closing_balance : option string
}.

Definition empty : Metadata := mkMetadata None None None None None.

Definition set_period (m : Metadata) (from to : string) : Metadata :=
  mkMetadata (Some to) (Some from) (Some to)
    (opening_balance m) (closing_balance m).

Definition set_opening (m : Metadata) (b : string) : Metadata :=
  mkMetadata (statement_date m) (period_from m) (period_to m)
    (Some b) (closing_balance m).

Definition set_closing (m : Metadata) (b : string) : Metadata :=
  mkMetadata (statement_date m) (period_from m) (period_to m)
    (opening_balance m) (Some b).

Definition period_step (line : string) (m : Metadata) : result Metadata :=
  match search_period line with
  | Some (g1, g2) =>
      from <- ymd_of_dmy g1 ;;
      to <- ymd_of_dmy g2 ;;
      Ok (set_period m from to)
  | None => Ok m
  end.

(** The search for a date on the label line is omitted: its result is not used. *)
Definition opening_step (lines : list string) (i : nat) (line : string)
    (m : Metadata) : result Metadata :=
  if contains "previous balance" (lower line)
     || contains "balance as at" (lower line)
  then
    b <- find_balance lines (range i (min (i + 5) (length lines))) ;;
    Ok (match b with Some v => set_opening m v | None => m end)
  else Ok m.

Definition closing_step (lines : list string) (i : nat) (line : string)
    (m : Metadata) : result Metadata :=
  if String.eqb (lower line) "new balance" then
    b <- find_balance lines (range (i + 1) (min (i + 5) (length lines))) ;;
    Ok (match b with Some v => set_closing m v | None => m end)
  else Ok m.

(** one iteration of [for i, line in enumerate(lines)] *)
Definition step (lines : list string) (i : nat) (line : string)
    (m : Metadata) : result Metadata :=
  m1 <- period_step line m ;;
  m2 <- opening_step lines i line m1 ;;
  closing_step lines i line m2.

Fixpoint loop (lines : list string) (i : nat) (rest : list string)
    (m : Metadata) : result Metadata :=
  match rest with
  | [] => Ok m
  | line :: rest' =>
      m' <- step lines i line m ;;
      loop lines (S i) rest' m'
  end.

Definition extract_statement_metadata (text : string) : result Metadata :=
  let lines := py_lines text in
  loop lines 0 lines empty.

(** [if description and amount: transactions.append({...})] *)
Definition emit (transactions : list Transaction)
    (booking value : string) (description_parts : list string)
    (amount : option string) : list Transaction :=
  let description := description_of description_parts in
  match amount with
  | Some a =>
      if truthy description && truthy a
      then transactions ++ [mkTransaction booking value description a]
      else transactions
  | None => transactions
  end.

(** the outer [while i < len(lines)] *)
Fixpoint scan (fuel : nat) (lines : list string) (i : nat)
    (transactions : list Transaction) : result (list Transaction) :=
  match fuel with
  | O => OutOfFuel
  | S fuel' =>
      if i <? length lines then
        line <- get lines i ;;
        if is_date_token line then
          let booking := line in
          i1 <- skip_blank fuel' lines (i + 1) ;;
          stop <- no_value_date lines i1 ;;
          if (stop : bool) then scan fuel' lines i1 transactions
          else
            value <- get lines i1 ;;
            '(parts, amount, i2) <- collect_body fuel' lines (i1 + 1) [] None ;;
            scan fuel' lines i2 (emit transactions booking value parts amount)
        else scan fuel' lines (i + 1) transactions
      else Ok transactions
  end.

Definition extract_transactions_fuel (fuel : nat) (text : string)
  : result (list Transaction) :=
  let lines := py_lines text in
  scan fuel lines 0 [].

(** Every iteration of every loop advances the cursor, so one unit of fuel
    per line and one for the final test is enough. *)
Definition extract_transactions (text : string) : result (list Transaction) :=
  extract_transactions_fuel (S (length (py_lines text))) text.

End Raw.

(** * [src/_src/extract_with_ocr.py] *)

Module Dated.

Record Metadata : Type := mkMetadata {
  year : option string;
  statement_date : option string;
  period_from : option string;
  period_to : option string;
  opening_balance : option string;
  closing_balance : option string
}.

Definition empty : Metadata := mkMetadata None None None None None None.

Definition set_period (m : Metadata) (from to yyyy : string) : Metadata :=
  mkMetadata (Some yyyy) (Some to) (Some from) (Some to)
    (opening_balance m) (closing_balance m).

Definition set_opening (m : Metadata) (b : string) : Metadata :=
  mkMetadata (year m) (statement_date m) (period_from m) (period_to m)
    (Some b) (closing_balance m).

Definition set_closing (m : Metadata) (b : string) : Metadata :=
  mkMetadata (year m) (statement_date m) (period_from m) (period_to m)
    (opening_balance m) (Some b).

Definition period_step (line : string) (m : Metadata) : result Metadata :=
  match search_period line with
  | Some (g1, g2) =>
      from <- ymd_of_dmy g1 ;;
      to <- ymd_of_dmy g2 ;;
      yyyy <- get (split "." g2) 2 ;;
      Ok (set_period m from to yyyy)
  | None => Ok m
  end.

Definition opening_step (lines : list string) (i : nat) (line : string)
    (m : Metadata) : result Metadata :=
  if contains "previous balance" (lower line)
     && negb (truthy_opt (opening_balance m))
  then
    b <- find_balance lines (range (i + 1) (min (i + 25) (length lines))) ;;
    Ok (match b with Some v => set_opening m v | None => m end)
  else Ok m.

Definition closing_step (lines : list string) (i : nat) (line : string)
    (m : Metadata) : result Metadata :=
  if contains "new balance" (lower line)
     && negb (truthy_opt (closing_balance m))
  then
    b <- find_balance lines (range (i + 1) (min (i + 25) (length lines))) ;;
    Ok (match b with Some v => set_closing m v | None => m end)
  else Ok m.

(** one iteration of [for i, line in enumerate(lines)] *)
Definition step (lines : list string) (i : nat) (line : string)
    (m : Metadata) : result Metadata :=
  m1 <- period_step line m ;;
  m2 <- opening_step lines i line m1 ;;
  closing_step lines i line m2.

Fixpoint loop (lines : list string) (i : nat) (rest : list string)
    (m : Metadata) : result Metadata :=
  match rest with
  | [] => Ok m
  | line :: rest' =>
      m' <- step lines i line m ;;
      loop lines (S i) rest' m'
  end.

Definition extract_statement_metadata (text : string) : result Metadata :=
  let lines := py_lines text in
  loop lines 0 lines empty.

(** [a, b = xs] *)
Definition unpack2 {A : Type} (xs : list A) : result (A * A) :=
  match xs with
  | [a; b] => Ok (a, b)
  | _ => Raise ValueError
  end.

(** [a, b, c = map(int, xs)]: it succeeds when [xs] has three items and
    [int] accepts each, and raises [ValueError] otherwise. *)
Fixpoint map_int (xs : list string) : result (list Z) :=
  match xs with
  | [] => Ok []
  | x :: rest =>
      v <- int x ;;
      vs <- map_int rest ;;
      Ok (v :: vs)
  end.

Definition unpack3_int (xs : list string) : result (Z * Z * Z) :=
  vs <- map_int xs ;;
  match vs with
  | [a; b; c] => Ok (a, b, c)
  | _ => Raise ValueError
  end.

(** the year the code assigns to a month *)
Definition assign_year (month from_year from_month to_year : Z) : Z :=
  if (from_year =? to_year)%Z then from_year
  else if (month >=? from_month)%Z then from_year
  else to_year.

(** the body of the [try] *)
Definition resolve (mm_dd period_from period_to : string) : result string :=
  '(month, day) <- unpack2 (split "/" mm_dd) ;;
  month <- int month ;;
  day <- int day ;;
  '(from_year, from_month, from_day) <- unpack3_int (split "-" period_from) ;;
  '(to_year, to_month, to_day) <- unpack3_int (split "-" period_to) ;;
  let year := assign_year month from_year from_month to_year in
  Ok (str_of_int year ++ "-" ++ format_02d month ++ "-" ++ format_02d day)%string.

Definition convert_mm_dd_to_full_date (mm_dd : string)
    (period_from period_to : option string) : result string :=
  match period_from, period_to with
  | Some from, Some to =>
      if negb (truthy mm_dd) || negb (truthy from) || negb (truthy to)
      then Ok mm_dd
      else try_except (resolve mm_dd from to) (Ok mm_dd)
  | _, _ => Ok mm_dd
  end.

(** [if period: year = int(period.split('-')[0])], outside any [try] *)
Definition year_of (period : option string) : result (option Z) :=
  match period with
  | Some p =>
      if truthy p then
        y <- get (split "-" p) 0 ;;
        v <- int y ;;
        Ok (Some v)
      else Ok None
  | None => Ok None
  end.

(** [if description and amount: booking_date = convert(...); ...;
    transactions.append({...})] *)
Definition emit (transactions : list Transaction)
    (booking value : string) (description_parts : list string)
    (amount : option string) (period_from period_to : option string)
  : result (list Transaction) :=
  let description := description_of description_parts in
  match amount with
  | Some a =>
      if truthy description && truthy a then
        booking_date <- convert_mm_dd_to_full_date booking period_from period_to ;;
        value_date <- convert_mm_dd_to_full_date value period_from period_to ;;
        Ok (transactions ++ [mkTransaction booking_date value_date description a])
      else Ok transactions
  | None => Ok transactions
  end.

(** the outer [while i < len(lines)] *)
Fixpoint scan (fuel : nat) (lines : list string)
    (period_from period_to : option string) (i : nat)
    (transactions : list Transaction) : result (list Transaction) :=
  match fuel with
  | O => OutOfFuel
  | S fuel' =>
      if i <? length lines then
        line <- get lines i ;;
        if is_date_token line then
          let booking := line in
          i1 <- skip_blank fuel' lines (i + 1) ;;
          stop <- no_value_date lines i1 ;;
          if (stop : bool) then scan fuel' lines period_from period_to i1 transactions
          else
            value <- get lines i1 ;;
            '(parts, amount, i2) <- collect_body fuel' lines (i1 + 1) [] None ;;
            transactions' <-
              emit transactions booking value parts amount period_from period_to ;;
            scan fuel' lines period_from period_to i2 transactions'
        else scan fuel' lines period_from period_to (i + 1) transactions
      else Ok transactions
  end.

Definition extract_transactions_fuel (fuel : nat) (text : string)
    (period_from period_to : option string) : result (list Transaction) :=
  let lines := py_lines text in
  year_from <- year_of period_from ;;
  year_to <- year_of period_to ;;
  scan fuel lines period_from period_to 0 [].

Definition extract_transactions (text : string)
    (period_from period_to : option string) : result (list Transaction) :=
  extract_transactions_fuel (S (length (py_lines text))) text
    period_from period_to.

End Dated.

(** * Vocabulary of the statements *)

Fixpoint take_while {A : Type} (p : A -> bool) (xs : list A) : list A :=
  match xs with
  | [] => []
  | x :: r => if p x then x :: take_while p r else []
  end.

(** a line at which the body loop breaks *)
Definition ends_body (l : string) : bool := is_date_token l || is_marker l.

(** the lines the body loop consumes when it starts at [lines[i]] *)
Definition block_body (lines : list string) (i : nat) : list string :=
  take_while (fun l => negb (ends_body l)) (skipn i lines).

(** the blank lines the cursor skips from [lines[i]] on *)
Definition blank_run (lines : list string) (i : nat) : list string :=
  take_while (fun l => negb (truthy l)) (skipn i lines).

Definition money_lines (body : list string) : list string :=
  filter is_money_token body.

Definition text_lines (body : list string) : list string :=
  filter (fun l => negb (is_money_token l) && truthy l) body.


Definition last_money (body : list string) : option string :=
  hd_error (rev (money_lines body)).

(** a piece of a description: a non-empty line that is no money token *)
Definition good_part (lines : list string) (p : string) : Prop :=
  In p lines /\ truthy p = true /\ is_money_token p = false.

(** an amount: the trimmed text of a money-token line *)
Definition good_amount (lines : list string) (a : string) : Prop :=
  exists l, In l lines /\ is_money_token l = true /\ a = strip l.

Definition emitted (lines : list string) (t : Transaction) : Prop :=
  description t <> EmptyString /\
  good_amount lines (amount t) /\
  exists parts,
    description t = description_of parts /\ Forall (good_part lines) parts.

Definition fmap {A B : Type} (f : A -> B) (r : result A) : result B :=
  match r with
  | Ok a => Ok (f a)
  | Raise e => Raise e
  | OutOfFuel => OutOfFuel
  end.

(** the date the resolver puts in place of a token *)
Definition resolved (period_from period_to : option string) (mm_dd : string)
  : string :=
  match Dated.convert_mm_dd_to_full_date mm_dd period_from period_to with
  | Ok s => s
  | _ => mm_dd
  end.

Definition redate (period_from period_to : option string) (t : Transaction)
  : Transaction :=
  mkTransaction (resolved period_from period_to (booking_date t))
    (resolved period_from period_to (value_date t))
    (description t) (amount t).

(** [text] as its lines, joined by newlines *)
Definition unlines (ls : list string) : string :=
  join (String newline EmptyString) ls.

(** the month and day of a token whose two [/]-separated components are
    numbers *)
Definition parse_token (mm_dd : string) : option (Z * Z) :=
  match split "/" mm_dd with
  | [m; d] =>
      match py_int m, py_int d with
      | Some month, Some day => Some (month, day)
      | _, _ => None
      end
  | _ => None
  end.

(** the year, month and day of a period bound whose three [-]-separated
    components are numbers *)
Definition parse_period (p : string) : option (Z * Z * Z) :=
  match split "-" p with
  | [y; m; d] =>
      match py_int y, py_int m, py_int d with
      | Some year, Some month, Some day => Some (year, month, day)
      | _, _, _ => None
      end
  | _ => None
  end.

(** [f"{year}-{month:02d}-{day:02d}"] *)
Definition iso (year month day : Z) : string :=
  str_of_int year ++ "-" ++ format_02d month ++ "-" ++ format_02d day.

(** what the specification asks of an emitted transaction, over the
    trimmed lines of the text *)
Definition complete (lines : list string) (t : Transaction) : Prop :=
  description t <> EmptyString /\
  is_money_token (amount t) = true /\
  In (amount t) lines /\
  exists parts,
    description t = strip (join " " parts) /\ Forall (good_part lines) parts.

(** a line that neither starts a block nor is a marker *)
Definition body_line (l : string) : Prop :=
  is_date_token l = false /\ is_marker l = false.

(** DD.MM.YYYY rearranged to YYYY-MM-DD *)
Definition swap_dmy (g : string) : string :=
  substring 6 4 g ++ "-" ++ substring 3 2 g ++ "-" ++ substring 0 2 g.

(** the balance a window of lines yields: its first money-token line *)
Definition balance_in (window : list string) : option string :=
  option_map (fun l => strip (chomp l)) (find is_money_token window).

(** the lines [lines[a]], ..., [lines[a + n - 1]] *)
Definition window (lines : list string) (a n : nat) : list string :=
  firstn n (skipn a lines).

(** The iterations of the metadata loops as functions: what is left of
    them once the index and key errors are ruled out. *)
Module RawSteps.

Definition period (line : string) (m : Raw.Metadata) : Raw.Metadata :=
  match search_period line with
  | Some (g1, g2) => Raw.set_period m (swap_dmy g1) (swap_dmy g2)
  | None => m
  end.

Definition opening_label (line : string) : bool :=
  contains "previous balance" (lower line)
  || contains "balance as at" (lower line).

Definition closing_label (line : string) : bool :=
  String.eqb (lower line) "new balance".

Definition opening (lines : list string) (i : nat) (line : string)
    (m : Raw.Metadata) : Raw.Metadata :=
  if opening_label line then
    match balance_in (window lines i 5) with
    | Some v => Raw.set_opening m v
    | None => m
    end
  else m.

Definition closing (lines : list string) (i : nat) (line : string)
    (m : Raw.Metadata) : Raw.Metadata :=
  if closing_label line then
    match balance_in (window lines (i + 1) 4) with
    | Some v => Raw.set_closing m v
    | None => m
    end
  else m.

Definition step (lines : list string) (i : nat) (line : string)
    (m : Raw.Metadata) : Raw.Metadata :=
  closing lines i line (opening lines i line (period line m)).

Fixpoint loop (lines : list string) (i : nat) (rest : list string)
    (m : Raw.Metadata) : Raw.Metadata :=
  match rest with
  | [] => m
  | line :: rest' => loop lines (S i) rest' (step lines i line m)
  end.

End RawSteps.

Module DatedSteps.

Definition period (line : string) (m : Dated.Metadata) : Dated.Metadata :=
  match search_period line with
  | Some (g1, g2) =>
      Dated.set_period m (swap_dmy g1) (swap_dmy g2) (substring 6 4 g2)
  | None => m
  end.

Definition opening_label (line : string) : bool :=
  contains "previous balance" (lower line).

Definition closing_label (line : string) : bool :=
  contains "new balance" (lower line).

Definition opening (lines : list string) (i : nat) (line : string)
    (m : Dated.Metadata) : Dated.Metadata :=
  if opening_label line && negb (truthy_opt (Dated.opening_balance m)) then
    match balance_in (window lines (i + 1) 24) with
    | Some v => Dated.set_opening m v
    | None => m
    end
  else m.

Definition closing (lines : list string) (i : nat) (line : string)
    (m : Dated.Metadata) : Dated.Metadata :=
  if closing_label line && negb (truthy_opt (Dated.closing_balance m)) then
    match balance_in (window lines (i + 1) 24) with
    | Some v => Dated.set_closing m v
    | None => m
    end
  else m.

Definition step (lines : list string) (i : nat) (line : string)
    (m : Dated.Metadata) : Dated.Metadata :=
  closing lines i line (opening lines i line (period line m)).

Fixpoint loop (lines : list string) (i : nat) (rest : list string)
    (m : Dated.Metadata) : Dated.Metadata :=
  match rest with
  | [] => m
  | line :: rest' => loop lines (S i) rest' (step lines i line m)
  end.

End DatedSteps.

(** the characters [\d] accepts *)
Definition digit_chars : list ascii :=
  ["0"; "1"; "2"; "3"; "4"; "5"; "6"; "7"; "8"; "9"]%char.

(** YYYY-MM-DD: four digits, a dash, two digits, a dash, two digits *)
Definition is_ymd (s : string) : bool :=
  match s with
  | String y1 (String y2 (String y3 (String y4 (String a (String m1
      (String m2 (String b (String d1 (String d2 EmptyString))))))))) =>
      is_digit y1 && is_digit y2 && is_digit y3 && is_digit y4
      && Ascii.eqb a "-" && is_digit m1 && is_digit m2
      && Ascii.eqb b "-" && is_digit d1 && is_digit d2
  | _ => false
  end.

(** [c in s] for a character *)
Fixpoint has_char (c : ascii) (s : string) : bool :=
  match s with
  | EmptyString => false
  | String x r => Ascii.eqb x c || has_char c r
  end.



(** the two dates of a transaction as they stand in the text: two date
    tokens with nothing but blank lines between them *)
Definition date_pair (lines : list string) (t : Transaction) : Prop :=
  exists i j,
    i < j /\
    nth_error lines i = Some (booking_date t) /\
    nth_error lines j = Some (value_date t) /\
    is_date_token (booking_date t) = true /\
    is_date_token (value_date t) = true /\
    forall k, i < k < j -> nth_error lines k = Some EmptyString.

(** 1 for an amount, 0 for [None] *)
Definition found (amount : option string) : nat :=
  match amount with
  | Some _ => 1
  | None => 0
  end.

(** The accumulation loop of [main] in [src/_src/extract_with_ocr.py],
    over what [ocr_pdf] returned for each file in turn: the text, or
    [None] when the OCR failed.  Printing is left out. *)
Module DatedMain.

Fixpoint process (texts : list (option string))
    (all_transactions : list Transaction)
    (all_statements : list Dated.Metadata)
  : result (list Transaction * list Dated.Metadata) :=
  match texts with
  | [] => Ok (all_transactions, all_statements)
  | text :: rest =>
      if truthy_opt text then
        match text with
        | Some t =>
            metadata <- Dated.extract_statement_metadata t ;;
            transactions <-
              Dated.extract_transactions t
                (Dated.period_from metadata) (Dated.period_to metadata) ;;
            process rest (all_transactions ++ transactions)
              (all_statements ++ [metadata])
        | None => process rest all_transactions all_statements
        end
      else process rest all_transactions all_statements
  end.

End DatedMain.

(** the texts [main] does not skip *)
Definition kept (texts : list (option string)) : list string :=
  flat_map (fun o => match o with
                     | Some t => if truthy t then [t] else []
                     | None => []
                     end) texts.

(** what one statement contributes: its metadata and, with the period of
    that metadata, its transactions *)
Definition statement_of (t : string)
    (r : Dated.Metadata * list Transaction) : Prop :=
  Dated.extract_statement_metadata t = Ok (fst r) /\
  Dated.extract_transactions t
    (Dated.period_from (fst r)) (Dated.period_to (fst r)) = Ok (snd r).


(** the characters a money token is made of *)
Definition money_char (c : ascii) : bool :=
  is_digit c || is_space c || Ascii.eqb c "-" || Ascii.eqb c "+"
  || Ascii.eqb c "," || Ascii.eqb c ".".

Fixpoint all_chars (p : ascii -> bool) (s : string) : bool :=
  match s with
  | EmptyString => true
  | String c r => p c && all_chars p r
  end.



(** The matchers and [strip] are unfolded on demand only. *)
Arguments is_date_token : simpl never.
Arguments is_money_token : simpl never.
Arguments is_marker : simpl never.
Arguments strip : simpl never.
Arguments search_period : simpl never.
Arguments contains : simpl never.

(** * Facts about the string primitives *)

Lemma lstrip_head (s : string) :
  lstrip s = EmptyString \/
  exists c r, lstrip s = String c r /\ is_space c = false.
Proof.
  induction s as [|c r IH]; simpl.
  - now left.
  - destruct (is_space c) eqn:E.
    + exact IH.
    + right. now exists c, r.
Qed.

Lemma rstrip_keeps_head (c : ascii) (r : string) :
  is_space c = false -> rstrip (String c r) = String c (rstrip r).
Proof.
  intros E. simpl. now rewrite E.
Qed.

Lemma rstrip_idem (s : string) : rstrip (rstrip s) = rstrip s.
Proof.
  induction s as [|c r IH]; simpl; [reflexivity|].
  destruct (is_space c && negb (truthy (rstrip r))) eqn:E; simpl.
  - reflexivity.
  - now rewrite IH, E.
Qed.

Lemma strip_idem (s : string) : strip (strip s) = strip s.
Proof.
  unfold strip.
  destruct (lstrip_head s) as [E | (c & r & E & Hc)]; rewrite E.
  - reflexivity.
  - rewrite (rstrip_keeps_head _ _ Hc). simpl lstrip. rewrite Hc.
    rewrite <- (rstrip_keeps_head _ _ Hc). apply rstrip_idem.
Qed.

Lemma stripped_rstrip (s : string) : strip s = s -> rstrip s = s.
Proof.
  intros E. rewrite <- E at 1. unfold strip. rewrite rstrip_idem. exact E.
Qed.

Lemma rstrip_fixed_chomp (s : string) : rstrip s = s -> chomp s = s.
Proof.
  induction s as [|c r IH]; [reflexivity|].
  intros E. simpl in E.
  destruct (is_space c && negb (truthy (rstrip r))) eqn:Ec; [discriminate|].
  injection E as E. destruct r as [|c' r'].
  - simpl in *. rewrite andb_true_r in Ec.
    destruct (Ascii.eqb c newline) eqn:En; [|reflexivity].
    apply Ascii.eqb_eq in En. subst c. discriminate.
  - change (chomp (String c (String c' r')))
      with (String c (chomp (String c' r'))).
    now rewrite (IH E).
Qed.

Lemma stripped_chomp (s : string) : strip s = s -> chomp s = s.
Proof.
  intros E. apply rstrip_fixed_chomp, stripped_rstrip, E.
Qed.

Lemma py_lines_stripped (text l : string) :
  In l (py_lines text) -> strip l = l.
Proof.
  unfold py_lines. intros H. apply in_map_iff in H.
  destruct H as (x & <- & _). apply strip_idem.
Qed.

Lemma money_token_truthy (s : string) : is_money_token s = true -> truthy s = true.
Proof.
  destruct s; [discriminate | reflexivity].
Qed.

(** * Facts about indexing *)

Lemma get_Ok {A : Type} (xs : list A) (i : nat) (x : A) :
  get xs i = Ok x <-> nth_error xs i = Some x.
Proof.
  unfold get. destruct (nth_error xs i); split; intros H;
    try discriminate; congruence.
Qed.

Lemma get_lt {A : Type} (xs : list A) (i : nat) :
  i < length xs -> exists x, get xs i = Ok x /\ nth_error xs i = Some x.
Proof.
  intros H. unfold get. destruct (nth_error xs i) eqn:E.
  - now exists a.
  - apply nth_error_None in E. lia.
Qed.

Lemma skipn_nth {A : Type} (xs : list A) (i : nat) (x : A) :
  nth_error xs i = Some x -> skipn i xs = x :: skipn (S i) xs.
Proof.
  revert xs. induction i as [|i IH]; intros [|y ys] H; try discriminate.
  - simpl in H. now injection H as ->.
  - simpl in H. exact (IH ys H).
Qed.

Lemma In_skipn {A : Type} (xs : list A) (i : nat) (x : A) :
  In x (skipn i xs) -> In x xs.
Proof.
  revert xs. induction i as [|i IH]; intros [|y ys] H; simpl in *; auto.
Qed.

Lemma block_body_cons (lines : list string) (i : nat) (l : string) :
  nth_error lines i = Some l ->
  block_body lines i =
    if ends_body l then [] else l :: block_body lines (S i).
Proof.
  intros H. unfold block_body. rewrite (skipn_nth _ _ _ H). simpl.
  now destruct (ends_body l).
Qed.

Lemma block_body_end (lines : list string) (i : nat) :
  length lines <= i -> block_body lines i = [].
Proof.
  intros H. unfold block_body. now rewrite skipn_all2.
Qed.

Lemma blank_run_cons (lines : list string) (i : nat) (l : string) :
  nth_error lines i = Some l ->
  blank_run lines i = if truthy l then [] else l :: blank_run lines (S i).
Proof.
  intros H. unfold blank_run. rewrite (skipn_nth _ _ _ H). simpl.
  now destruct (truthy l).
Qed.

Lemma blank_run_end (lines : list string) (i : nat) :
  length lines <= i -> blank_run lines i = [].
Proof.
  intros H. unfold blank_run. now rewrite skipn_all2.
Qed.

Lemma last_money_cons_money (l : string) (body : list string) :
  is_money_token l = true ->
  last_money (l :: body) =
    match last_money body with Some a => Some a | None => Some l end.
Proof.
  intros H. unfold last_money, money_lines. simpl. rewrite H. simpl.
  destruct (rev (filter is_money_token body)); reflexivity.
Qed.

Lemma text_lines_cons (l : string) (body : list string) :
  text_lines (l :: body) =
    if negb (is_money_token l) && truthy l
    then l :: text_lines body else text_lines body.
Proof. reflexivity. Qed.

Lemma last_money_cons_other (l : string) (body : list string) :
  is_money_token l = false -> last_money (l :: body) = last_money body.
Proof.
  intros H. unfold last_money, money_lines. simpl. now rewrite H.
Qed.

(** * The inner loops *)

Lemma skip_blank_spec (fuel : nat) (lines : list string) (i : nat) :
  length lines - i < fuel ->
  skip_blank fuel lines i = Ok (i + length (blank_run lines i)).
Proof.
  revert i. induction fuel as [|fuel IH]; intros i Hf; [lia|].
  simpl. destruct (i <? length lines) eqn:Hi.
  - apply Nat.ltb_lt in Hi.
    destruct (get_lt lines i Hi) as (l & Hg & Hn).
    rewrite Hg. simpl. rewrite (blank_run_cons _ _ _ Hn).
    destruct (truthy l); simpl.
    + f_equal. lia.
    + rewrite Nat.add_1_r, IH by lia. f_equal. lia.
  - apply Nat.ltb_ge in Hi. rewrite (blank_run_end _ _ Hi). simpl.
    f_equal. lia.
Qed.

Lemma collect_body_spec (fuel : nat) (lines : list string) (i : nat)
    (parts : list string) (amt : option string) :
  length lines - i < fuel ->
  collect_body fuel lines i parts amt =
    Ok (parts ++ text_lines (block_body lines i),
        match last_money (block_body lines i) with
        | Some a => Some (strip a)
        | None => amt
        end,
        i + length (block_body lines i)).
Proof.
  revert i parts amt. induction fuel as [|fuel IH]; intros i parts amt Hf; [lia|].
  cbn [collect_body]. destruct (i <? length lines) eqn:Hi.
  - apply Nat.ltb_lt in Hi.
    destruct (get_lt lines i Hi) as (l & Hg & Hn).
    rewrite Hg. cbn [bind]. rewrite (block_body_cons _ _ _ Hn). unfold ends_body.
    destruct (is_date_token l) eqn:Hd; cbn [orb].
    { cbn. rewrite app_nil_r, Nat.add_0_r. reflexivity. }
    destruct (is_marker l) eqn:Hm.
    { cbn. rewrite app_nil_r, Nat.add_0_r. reflexivity. }
    rewrite Nat.add_1_r, text_lines_cons.
    destruct (is_money_token l) eqn:Hy.
    + rewrite IH by lia.
      rewrite (last_money_cons_money _ _ Hy). cbn [negb andb length].
      destruct (last_money (block_body lines (S i)));
        rewrite Nat.add_succ_r; reflexivity.
    + rewrite IH by lia.
      rewrite (last_money_cons_other _ _ Hy). cbn [negb andb length].
      destruct (truthy l).
      * rewrite <- app_assoc, Nat.add_succ_r. reflexivity.
      * rewrite Nat.add_succ_r. reflexivity.
  - apply Nat.ltb_ge in Hi. rewrite (block_body_end _ _ Hi). cbn.
    rewrite app_nil_r, Nat.add_0_r. reflexivity.
Qed.

Lemma get_In {A : Type} (xs : list A) (i : nat) (x : A) :
  get xs i = Ok x -> In x xs.
Proof.
  intros H. apply get_Ok in H. exact (nth_error_In _ _ H).
Qed.

(** case analysis on the outcome of a call under [bind] *)
Tactic Notation "run" constr(c) "as" simple_intropattern(pat)
    "eqn" ":" ident(E) "in" hyp(H) :=
  destruct c as pat eqn:E; cbn [bind] in H; try discriminate H.

Lemma collect_body_sound (fuel : nat) (lines : list string) (i : nat)
    (parts : list string) (amt : option string)
    (parts' : list string) (amt' : option string) (i' : nat) :
  collect_body fuel lines i parts amt = Ok (parts', amt', i') ->
  Forall (good_part lines) parts ->
  (forall a, amt = Some a -> good_amount lines a) ->
  Forall (good_part lines) parts' /\
  (forall a, amt' = Some a -> good_amount lines a).
Proof.
  revert i parts amt.
  induction fuel as [|fuel IH]; intros i parts amt H Hp Ha; [discriminate|].
  cbn [collect_body] in H.
  destruct (i <? length lines); [|injection H as <- <- <-; now split].
  run (get lines i) as [l| |] eqn:Hg in H.
  destruct (is_date_token l); [injection H as <- <- <-; now split|].
  destruct (is_marker l); [injection H as <- <- <-; now split|].
  destruct (is_money_token l) eqn:Hy.
  - apply (IH _ _ _ H Hp). intros a [= <-].
    exists l. split; [exact (get_In _ _ _ Hg)|now split].
  - apply (IH _ _ _ H); [|exact Ha].
    destruct (truthy l) eqn:Ht; [|exact Hp].
    apply Forall_app. split; [exact Hp|].
    constructor; [|constructor].
    split; [exact (get_In _ _ _ Hg)|now split].
Qed.

Lemma truthy_nonempty (s : string) : truthy s = true -> s <> EmptyString.
Proof. now destruct s. Qed.

Module RawFacts.

Lemma emit_sound (lines : list string) (acc : list Transaction)
    (bd vd : string) (parts : list string) (amt : option string) :
  Forall (emitted lines) acc ->
  Forall (good_part lines) parts ->
  (forall a, amt = Some a -> good_amount lines a) ->
  Forall (emitted lines) (Raw.emit acc bd vd parts amt).
Proof.
  intros Hacc Hp Ha. unfold Raw.emit.
  destruct amt as [a|]; [|exact Hacc].
  destruct (truthy (description_of parts) && truthy a) eqn:E; [|exact Hacc].
  apply andb_prop in E. destruct E as [Ed _].
  apply Forall_app. split; [exact Hacc|].
  constructor; [|constructor].
  split; [exact (truthy_nonempty _ Ed)|].
  split; [now apply Ha|]. now exists parts.
Qed.

Lemma scan_sound (lines : list string) (fuel i : nat)
    (acc ts : list Transaction) :
  Raw.scan fuel lines i acc = Ok ts ->
  Forall (emitted lines) acc -> Forall (emitted lines) ts.
Proof.
  revert i acc.
  induction fuel as [|fuel IH]; intros i acc H Hacc; [discriminate|].
  cbn [Raw.scan] in H.
  destruct (i <? length lines); [|now injection H as <-].
  run (get lines i) as [line| |] eqn:Hg in H.
  destruct (is_date_token line); [|exact (IH _ _ H Hacc)].
  run (skip_blank fuel lines (i + 1)) as [i1| |] eqn:Hs in H.
  run (no_value_date lines i1) as [stop| |] eqn:Hv in H.
  destruct stop; [exact (IH _ _ H Hacc)|].
  run (get lines i1) as [value| |] eqn:Hg1 in H.
  run (collect_body fuel lines (i1 + 1) [] None)
    as [[[parts amt] i2]| |] eqn:Hc in H.
  apply (IH _ _ H).
  destruct (collect_body_sound _ _ _ _ _ _ _ _ Hc) as [Hp Ha];
    [constructor|discriminate|].
  now apply emit_sound.
Qed.

(** Without a booking-date line the cursor only moves on. *)
Lemma scan_no_dates (lines : list string) (fuel i : nat)
    (acc : list Transaction) :
  (forall l, In l lines -> is_date_token l = false) ->
  length lines - i < fuel ->
  Raw.scan fuel lines i acc = Ok acc.
Proof.
  intros Hno. revert i.
  induction fuel as [|fuel IH]; intros i Hf; [lia|].
  cbn [Raw.scan]. destruct (i <? length lines) eqn:Hi; [|reflexivity].
  apply Nat.ltb_lt in Hi.
  destruct (get_lt lines i Hi) as (l & Hg & Hn).
  rewrite Hg. cbn [bind]. rewrite (Hno l (nth_error_In _ _ Hn)).
  apply IH. lia.
Qed.

Lemma no_value_date_total (lines : list string) (i : nat) :
  exists b, no_value_date lines i = Ok b /\
            (b = false -> exists v, get lines i = Ok v /\ is_date_token v = true).
Proof.
  unfold no_value_date. destruct (length lines <=? i) eqn:E.
  - exists true. split; [reflexivity|discriminate].
  - apply Nat.leb_gt in E. destruct (get_lt lines i E) as (l & Hg & _).
    rewrite Hg. cbn [bind]. exists (negb (is_date_token l)).
    split; [reflexivity|]. intros Hb. exists l. split; [reflexivity|].
    now apply negb_false_iff.
Qed.

(** With a unit of fuel per remaining line and one more, the scan ends
    normally, and more fuel does not change what it returns. *)
Lemma scan_total (lines : list string) (fuel i : nat)
    (acc : list Transaction) :
  length lines - i < fuel ->
  exists ts, forall fuel', length lines - i < fuel' ->
    Raw.scan fuel' lines i acc = Ok ts.
Proof.
  revert i acc.
  induction fuel as [|fuel IH]; intros i acc Hf; [lia|].
  destruct (i <? length lines) eqn:Hi.
  - pose proof Hi as Hi'. apply Nat.ltb_lt in Hi'.
    destruct (get_lt lines i Hi') as (l & Hg & Hn).
    destruct (is_date_token l) eqn:Hd.
    + set (i1 := (i + 1) + length (blank_run lines (i + 1))).
      destruct (no_value_date_total lines i1) as (stop & Hv & Hstop).
      destruct stop.
      * destruct (IH i1 acc) as (ts & Hts); [unfold i1; lia|].
        exists ts. intros [|fuel'] Hf'; [lia|].
        cbn [Raw.scan]. rewrite Hi, Hg. cbn [bind]. rewrite Hd.
        rewrite skip_blank_spec by lia. cbn [bind]. fold i1.
        rewrite Hv. cbn [bind]. apply Hts. unfold i1. lia.
      * destruct (Hstop eq_refl) as (v & Hgv & _).
        set (body := block_body lines (i1 + 1)).
        destruct (IH (i1 + 1 + length body)
                    (Raw.emit acc l v (text_lines body)
                       (match last_money body with
                        | Some a => Some (strip a)
                        | None => None
                        end))) as (ts & Hts); [unfold i1; lia|].
        exists ts. intros [|fuel'] Hf'; [lia|].
        cbn [Raw.scan]. rewrite Hi, Hg. cbn [bind]. rewrite Hd.
        rewrite skip_blank_spec by lia. cbn [bind]. fold i1.
        rewrite Hv. cbn [bind]. rewrite Hgv. cbn [bind].
        rewrite collect_body_spec by (unfold i1; lia). cbn [bind app].
        fold body. apply Hts. unfold i1. lia.
    + destruct (IH (i + 1) acc) as (ts & Hts); [lia|].
      exists ts. intros [|fuel'] Hf'; [lia|].
      cbn [Raw.scan]. rewrite Hi, Hg. cbn [bind]. rewrite Hd.
      apply Hts. lia.
  - exists acc. intros [|fuel'] Hf'; [lia|].
    cbn [Raw.scan]. now rewrite Hi.
Qed.

End RawFacts.

(** * The resolver cannot fail, and the period-aware scan is the plain
      scan with its dates resolved *)

Module DatedFacts.

Lemma int_outcome (s : string) : int s <> OutOfFuel.
Proof. unfold int. now destruct (py_int s). Qed.

Lemma map_int_outcome (xs : list string) : Dated.map_int xs <> OutOfFuel.
Proof.
  induction xs as [|x r IH]; cbn [Dated.map_int]; [discriminate|].
  pose proof (int_outcome x) as Hx.
  destruct (int x); cbn [bind]; try congruence.
  destruct (Dated.map_int r); cbn [bind]; congruence.
Qed.

Lemma unpack3_int_outcome (xs : list string) :
  Dated.unpack3_int xs <> OutOfFuel.
Proof.
  unfold Dated.unpack3_int. pose proof (map_int_outcome xs) as H.
  destruct (Dated.map_int xs) as [vs| |]; cbn [bind]; try congruence.
  now destruct vs as [|a [|b [|c [|d r]]]].
Qed.

Lemma resolve_outcome (mm_dd from to : string) :
  Dated.resolve mm_dd from to <> OutOfFuel.
Proof.
  unfold Dated.resolve.
  destruct (split "/" mm_dd) as [|a [|b [|c r]]]; cbn [Dated.unpack2 bind];
    try discriminate.
  pose proof (int_outcome a) as Ha. destruct (int a); cbn [bind]; try congruence.
  pose proof (int_outcome b) as Hb. destruct (int b); cbn [bind]; try congruence.
  pose proof (unpack3_int_outcome (split "-" from)) as Hf.
  destruct (Dated.unpack3_int (split "-" from)) as [[[fy fm] fd]| |];
    cbn [bind]; try congruence.
  pose proof (unpack3_int_outcome (split "-" to)) as Ht.
  destruct (Dated.unpack3_int (split "-" to)) as [[[ty tm] td]| |];
    cbn [bind]; congruence.
Qed.

(** [convert_mm_dd_to_full_date] returns normally on every input. *)
Lemma convert_resolved (mm_dd : string) (pf pt : option string) :
  Dated.convert_mm_dd_to_full_date mm_dd pf pt = Ok (resolved pf pt mm_dd).
Proof.
  unfold resolved.
  assert (exists s, Dated.convert_mm_dd_to_full_date mm_dd pf pt = Ok s)
    as [s ->]; [|reflexivity].
  unfold Dated.convert_mm_dd_to_full_date.
  destruct pf as [from|]; [|now exists mm_dd].
  destruct pt as [to|]; [|now exists mm_dd].
  destruct (negb (truthy mm_dd) || negb (truthy from) || negb (truthy to));
    [now exists mm_dd|].
  pose proof (resolve_outcome mm_dd from to) as H.
  destruct (Dated.resolve mm_dd from to) as [s|e|]; cbn [try_except].
  - now exists s.
  - now exists mm_dd.
  - congruence.
Qed.

Lemma resolved_no_period (mm_dd : string) (pf pt : option string) :
  pf = None \/ pt = None -> resolved pf pt mm_dd = mm_dd.
Proof.
  unfold resolved, Dated.convert_mm_dd_to_full_date.
  intros [-> | ->]; [reflexivity|]. now destruct pf.
Qed.

Lemma emit_redate (pf pt : option string) (acc : list Transaction)
    (bd vd : string) (parts : list string) (amt : option string) :
  Dated.emit (map (redate pf pt) acc) bd vd parts amt pf pt =
  Ok (map (redate pf pt) (Raw.emit acc bd vd parts amt)).
Proof.
  unfold Dated.emit, Raw.emit.
  destruct amt as [a|]; [|reflexivity].
  destruct (truthy (description_of parts) && truthy a); [|reflexivity].
  rewrite !convert_resolved. cbn [bind].
  now rewrite map_app.
Qed.

Lemma scan_redate (pf pt : option string) (lines : list string)
    (fuel i : nat) (acc : list Transaction) :
  Dated.scan fuel lines pf pt i (map (redate pf pt) acc) =
  fmap (map (redate pf pt)) (Raw.scan fuel lines i acc).
Proof.
  revert i acc. induction fuel as [|fuel IH]; intros i acc; [reflexivity|].
  cbn [Dated.scan Raw.scan].
  destruct (i <? length lines); [|reflexivity].
  destruct (get lines i) as [line| |]; cbn [bind fmap]; try reflexivity.
  destruct (is_date_token line); [|apply IH].
  destruct (skip_blank fuel lines (i + 1)) as [i1| |]; cbn [bind fmap];
    try reflexivity.
  destruct (no_value_date lines i1) as [stop| |]; cbn [bind fmap];
    try reflexivity.
  destruct stop; [apply IH|].
  destruct (get lines i1) as [value| |]; cbn [bind fmap]; try reflexivity.
  destruct (collect_body fuel lines (i1 + 1) [] None)
    as [[[parts amt] i2]| |]; cbn [bind fmap]; try reflexivity.
  rewrite emit_redate. cbn [bind]. apply IH.
Qed.

Lemma redate_no_period (t : Transaction) : redate None None t = t.
Proof.
  destruct t as [b v d a]. unfold redate.
  cbn [booking_date value_date description amount].
  rewrite !resolved_no_period by now left. reflexivity.
Qed.

Lemma map_redate_no_period (ts : list Transaction) :
  map (redate None None) ts = ts.
Proof.
  induction ts as [|t r IH]; [reflexivity|].
  cbn [map]. now rewrite redate_no_period, IH.
Qed.

(** In no-period mode the two scans are the same function. *)
Lemma scan_no_period (lines : list string) (fuel i : nat)
    (acc : list Transaction) :
  Dated.scan fuel lines None None i acc = Raw.scan fuel lines i acc.
Proof.
  rewrite <- (map_redate_no_period acc) at 1. rewrite scan_redate.
  destruct (Raw.scan fuel lines i acc); cbn [fmap]; try reflexivity.
  now rewrite map_redate_no_period.
Qed.

End DatedFacts.

(** * The date resolver *)

Module ResolverFacts.

Lemma int_Ok (s : string) (z : Z) : int s = Ok z <-> py_int s = Some z.
Proof.
  unfold int. destruct (py_int s); split; intros H; try discriminate;
    congruence.
Qed.

Lemma map_int_Ok (xs : list string) (vs : list Z) :
  Dated.map_int xs = Ok vs <->
  Forall2 (fun x v => py_int x = Some v) xs vs.
Proof.
  revert vs. induction xs as [|x r IH]; intros vs; cbn [Dated.map_int].
  - split.
    + intros [= <-]. constructor.
    + intros H. inversion H. reflexivity.
  - split.
    + intros H.
      destruct (int x) as [v| |] eqn:Hx; cbn [bind] in H; try discriminate.
      destruct (Dated.map_int r) as [vs'| |] eqn:Hr; cbn [bind] in H;
        try discriminate.
      injection H as <-. constructor; [now apply int_Ok|now apply IH].
    + intros H. inversion H as [|x' v r' vs' Hv Hrest]; subst.
      apply int_Ok in Hv. rewrite Hv. cbn [bind].
      apply IH in Hrest. rewrite Hrest. reflexivity.
Qed.

Lemma unpack3_int_Ok (xs : list string) (y m d : Z) :
  Dated.unpack3_int xs = Ok (y, m, d) <->
  exists a b c, xs = [a; b; c] /\
    py_int a = Some y /\ py_int b = Some m /\ py_int c = Some d.
Proof.
  unfold Dated.unpack3_int. split.
  - intros H.
    destruct (Dated.map_int xs) as [vs| |] eqn:Hm; cbn [bind] in H;
      try discriminate.
    destruct vs as [|v1 [|v2 [|v3 [|v4 r]]]]; try discriminate.
    injection H as -> -> ->. apply map_int_Ok in Hm.
    inversion Hm as [|a ? r1 ? Ha H1]; subst.
    inversion H1 as [|b ? r2 ? Hb H2]; subst.
    inversion H2 as [|c ? r3 ? Hc H3]; subst.
    inversion H3; subst. now exists a, b, c.
  - intros (a & b & c & -> & Ha & Hb & Hc).
    assert (Dated.map_int [a; b; c] = Ok [y; m; d]) as ->; [|reflexivity].
    apply map_int_Ok. repeat constructor; assumption.
Qed.

Lemma unpack3_int_parse (p : string) (y m d : Z) :
  Dated.unpack3_int (split "-" p) = Ok (y, m, d) <->
  parse_period p = Some (y, m, d).
Proof.
  rewrite unpack3_int_Ok. unfold parse_period. split.
  - intros (a & b & c & -> & -> & -> & ->). reflexivity.
  - intros H. destruct (split "-" p) as [|a [|b [|c [|e r]]]];
      try discriminate.
    destruct (py_int a) as [y'|] eqn:Ha; try discriminate.
    destruct (py_int b) as [m'|] eqn:Hb; try discriminate.
    destruct (py_int c) as [d'|] eqn:Hc; try discriminate.
    injection H as <- <- <-. now exists a, b, c.
Qed.

(** The [try] body succeeds exactly when token and bounds parse. *)
Lemma resolve_Ok (mm_dd from to s : string) :
  Dated.resolve mm_dd from to = Ok s <->
  exists month day fy fm fd ty tm td,
    parse_token mm_dd = Some (month, day) /\
    parse_period from = Some (fy, fm, fd) /\
    parse_period to = Some (ty, tm, td) /\
    s = iso (Dated.assign_year month fy fm ty) month day.
Proof.
  unfold Dated.resolve, parse_token. split.
  - intros H.
    destruct (split "/" mm_dd) as [|a [|b [|c r]]];
      cbn [Dated.unpack2 bind] in H; try discriminate.
    destruct (int a) as [month| |] eqn:Ha; cbn [bind] in H; try discriminate.
    destruct (int b) as [day| |] eqn:Hb; cbn [bind] in H; try discriminate.
    destruct (Dated.unpack3_int (split "-" from)) as [[[fy fm] fd]| |] eqn:Hf;
      cbn [bind] in H; try discriminate.
    destruct (Dated.unpack3_int (split "-" to)) as [[[ty tm] td]| |] eqn:Ht;
      cbn [bind] in H; try discriminate.
    injection H as <-. apply int_Ok in Ha, Hb.
    apply unpack3_int_parse in Hf, Ht. rewrite Ha, Hb.
    now exists month, day, fy, fm, fd, ty, tm, td.
  - intros (month & day & fy & fm & fd & ty & tm & td & Hk & Hf & Ht & ->).
    destruct (split "/" mm_dd) as [|a [|b [|c r]]]; try discriminate.
    destruct (py_int a) as [month'|] eqn:Ha; try discriminate.
    destruct (py_int b) as [day'|] eqn:Hb; try discriminate.
    injection Hk as -> ->. apply int_Ok in Ha, Hb.
    cbn [Dated.unpack2 bind]. rewrite Ha, Hb. cbn [bind].
    apply unpack3_int_parse in Hf, Ht. rewrite Hf, Ht. reflexivity.
Qed.

Lemma split_two_truthy (sep : ascii) (s x : string) (r : list string) :
  split sep s = x :: r -> r <> [] -> truthy s = true.
Proof.
  destruct s; [|reflexivity]. cbn. intros [= <- <-] H. contradiction.
Qed.

Lemma parse_token_truthy (mm_dd : string) (v : Z * Z) :
  parse_token mm_dd = Some v -> truthy mm_dd = true.
Proof.
  unfold parse_token. intros H.
  destruct (split "/" mm_dd) as [|a [|b r]] eqn:E; try discriminate.
  now apply (split_two_truthy _ _ _ _ E).
Qed.

Lemma parse_period_truthy (p : string) (v : Z * Z * Z) :
  parse_period p = Some v -> truthy p = true.
Proof.
  unfold parse_period. intros H.
  destruct (split "-" p) as [|a [|b r]] eqn:E; try discriminate.
  now apply (split_two_truthy _ _ _ _ E).
Qed.

(** What the resolver returns when everything parses. *)
Lemma convert_parsed (mm_dd from to : string)
    (month day fy fm fd ty tm td : Z) :
  parse_token mm_dd = Some (month, day) ->
  parse_period from = Some (fy, fm, fd) ->
  parse_period to = Some (ty, tm, td) ->
  Dated.convert_mm_dd_to_full_date mm_dd (Some from) (Some to) =
    Ok (iso (Dated.assign_year month fy fm ty) month day).
Proof.
  intros Hk Hf Ht. unfold Dated.convert_mm_dd_to_full_date.
  rewrite (parse_token_truthy _ _ Hk), (parse_period_truthy _ _ Hf),
    (parse_period_truthy _ _ Ht). cbn [negb orb].
  assert (Dated.resolve mm_dd from to =
          Ok (iso (Dated.assign_year month fy fm ty) month day)) as ->;
    [|reflexivity].
  apply resolve_Ok. now exists month, day, fy, fm, fd, ty, tm, td.
Qed.

(** What the resolver returns when something does not parse. *)
Lemma convert_unparsed (mm_dd from to : string) :
  parse_token mm_dd = None \/ parse_period from = None \/
  parse_period to = None ->
  Dated.convert_mm_dd_to_full_date mm_dd (Some from) (Some to) = Ok mm_dd.
Proof.
  intros H. unfold Dated.convert_mm_dd_to_full_date.
  destruct (negb (truthy mm_dd) || negb (truthy from) || negb (truthy to));
    [reflexivity|].
  pose proof (DatedFacts.resolve_outcome mm_dd from to) as Hout.
  destruct (Dated.resolve mm_dd from to) as [s|e|] eqn:E; cbn [try_except];
    [|reflexivity|congruence].
  apply resolve_Ok in E.
  destruct E as (month & day & fy & fm & fd & ty & tm & td & Hk & Hf & Ht & _).
  destruct H as [H | [H | H]]; congruence.
Qed.

End ResolverFacts.

Module TokenFacts.

Lemma is_digit_cases (c : ascii) : is_digit c = true -> In c digit_chars.
Proof.
  destruct c as [[] [] [] [] [] [] [] []]; intros H; vm_compute in H;
    try discriminate H; cbn; tauto.
Qed.

Ltac each_digit H :=
  apply is_digit_cases in H; cbn [In digit_chars] in H;
  repeat (destruct H as [<- | H]; [|]); [..|contradiction H].






End TokenFacts.






(** * The date resolver: year assignment, degraded mode, no calendar check *)







(** * Blocks *)


Lemma date_token_truthy (s : string) : is_date_token s = true -> truthy s = true.
Proof. destruct s; [discriminate|reflexivity]. Qed.

Lemma last_money_In (body : list string) (a : string) :
  last_money body = Some a -> In a body /\ is_money_token a = true.
Proof.
  unfold last_money, money_lines. intros H.
  assert (In a (rev (filter is_money_token body))) as Hin.
  { destruct (rev (filter is_money_token body)); [discriminate|].
    injection H as ->. now left. }
  apply in_rev, filter_In in Hin. exact Hin.
Qed.

Lemma emitted_complete (lines : list string) (t : Transaction) :
  (forall l, In l lines -> strip l = l) ->
  emitted lines t -> complete lines t.
Proof.
  intros Hs (Hd & (l & Hin & Hm & Ha) & Hparts).
  rewrite (Hs l Hin) in Ha. subst l. now repeat split.
Qed.


Module BlockFacts.


End BlockFacts.

(** * The transaction parser *)

Lemma raw_extract_total (text : string) :
  exists ts,
    Raw.extract_transactions text = Ok ts /\
    forall fuel, length (py_lines text) < fuel ->
      Raw.extract_transactions_fuel fuel text = Ok ts.
Proof.
  unfold Raw.extract_transactions, Raw.extract_transactions_fuel.
  destruct (RawFacts.scan_total (py_lines text) (S (length (py_lines text)))
              0 []) as (ts & Hts); [lia|].
  exists ts. split; [apply Hts; lia|]. intros fuel Hf. apply Hts. lia.
Qed.

Lemma dated_extract_redate (text : string) (pf pt : option string)
    (fuel : nat) :
  Dated.extract_transactions_fuel fuel text pf pt =
    (_ <- Dated.year_of pf ;; _ <- Dated.year_of pt ;;
     fmap (map (redate pf pt)) (Raw.extract_transactions_fuel fuel text)).
Proof.
  unfold Dated.extract_transactions_fuel, Raw.extract_transactions_fuel.
  now rewrite <- (DatedFacts.scan_redate pf pt (py_lines text) fuel 0 []).
Qed.

Lemma dated_extract_Ok (text : string) (pf pt : option string)
    (ts' : list Transaction) :
  Dated.extract_transactions text pf pt = Ok ts' ->
  exists ts, Raw.extract_transactions text = Ok ts /\
             ts' = map (redate pf pt) ts.
Proof.
  unfold Dated.extract_transactions. rewrite dated_extract_redate.
  fold (Raw.extract_transactions text). intros H.
  destruct (Dated.year_of pf); cbn [bind] in H; try discriminate.
  destruct (Dated.year_of pt); cbn [bind] in H; try discriminate.
  destruct (Raw.extract_transactions text) as [ts| |]; cbn [fmap] in H;
    try discriminate.
  injection H as <-. now exists ts.
Qed.

Lemma raw_extract_complete (text : string) (ts : list Transaction) :
  Raw.extract_transactions text = Ok ts ->
  Forall (complete (py_lines text)) ts.
Proof.
  intros H. apply RawFacts.scan_sound in H; [|constructor].
  eapply Forall_impl; [|exact H]. intros t.
  apply emitted_complete. intros l. apply py_lines_stripped.
Qed.



(** C6: a text none of whose trimmed lines is a booking-date token yields
    the empty sequence, from either parser. *)
Theorem C6_no_date_no_transactions (text : string) :
  (forall l, In l (py_lines text) -> is_date_token l = false) ->
  Raw.extract_transactions text = Ok [] /\
  Dated.extract_transactions text None None = Ok [] /\
  (forall pf pt ts, Dated.extract_transactions text pf pt = Ok ts -> ts = []).
Proof.
  intros Hno.
  assert (Raw.extract_transactions text = Ok []) as Hraw.
  { apply RawFacts.scan_no_dates; [exact Hno|lia]. }
  split; [exact Hraw|]. split.
  - unfold Dated.extract_transactions. rewrite dated_extract_redate.
    cbn [Dated.year_of bind]. fold (Raw.extract_transactions text).
    now rewrite Hraw.
  - intros pf pt ts' H.
    destruct (dated_extract_Ok _ _ _ _ H) as (ts & Hts & ->).
    rewrite Hraw in Hts. now injection Hts as <-.
Qed.

Lemma C6_no_date_no_transactions_witness :
  (forall l, In l (py_lines (unlines ["Card payment"; "- 45.00"])) ->
     is_date_token l = false) /\
  Raw.extract_transactions (unlines ["Card payment"; "- 45.00"]) = Ok [].
Proof.
  assert (forall l, In l (py_lines (unlines ["Card payment"; "- 45.00"])) ->
            is_date_token l = false) as H.
  { intros l Hl. vm_compute in Hl. destruct Hl as [<- | [<- | []]]; reflexivity. }
  split; [exact H|].
  exact (proj1 (C6_no_date_no_transactions _ H)).
Defined.

(** C9: in no-period mode the parser of [src/_src/extract_with_ocr.py]
    returns what the parser of [src/extract_with_ocr.py] returns, on every
    text and with every amount of fuel, because the resolver with missing
    bounds is the identity; both return normally. *)
Theorem C9_variants_agree (text : string) :
  Dated.extract_transactions text None None = Raw.extract_transactions text /\
  (forall fuel,
     Dated.extract_transactions_fuel fuel text None None =
     Raw.extract_transactions_fuel fuel text) /\
  (forall mm_dd, Dated.convert_mm_dd_to_full_date mm_dd None None = Ok mm_dd) /\
  (exists ts, Raw.extract_transactions text = Ok ts /\
              Dated.extract_transactions text None None = Ok ts).
Proof.
  assert (forall fuel,
            Dated.extract_transactions_fuel fuel text None None =
            Raw.extract_transactions_fuel fuel text) as H.
  { intros fuel. unfold Dated.extract_transactions_fuel.
    cbn [Dated.year_of bind]. apply DatedFacts.scan_no_period. }
  split; [apply H|]. split; [exact H|]. split; [reflexivity|].
  destruct (raw_extract_total text) as (ts & Hts & _).
  exists ts. split; [exact Hts|].
  unfold Dated.extract_transactions. rewrite H. exact Hts.
Qed.




(** * The metadata extractor: the pieces both files share *)

Module PeriodFacts.

Lemma digit_not_dot (c : ascii) : is_digit c = true -> Ascii.eqb c "." = false.
Proof.
  intros H. TokenFacts.each_digit H; reflexivity.
Qed.

(** A matched date group always splits into its three fields. *)
Lemma dmy_group_ymd (s g r : string) :
  dmy_group s = Some (g, r) ->
  ymd_of_dmy g = Ok (swap_dmy g) /\
  get (split "." g) 2 = Ok (substring 6 4 g).
Proof.
  unfold dmy_group.
  destruct s as [|d1 [|d2 [|p1 [|m1 [|m2 [|p2 [|y1 [|y2 [|y3 [|y4 s']]]]]]]]]];
    try discriminate.
  match goal with |- (if ?c then _ else _) = _ -> _ =>
    destruct c eqn:E; [|discriminate] end.
  intros [= <- <-].
  do 9 (apply andb_prop in E; destruct E as [E ?]).
  repeat match goal with
         | H : Ascii.eqb _ "." = true |- _ => apply Ascii.eqb_eq in H; subst
         end.
  assert (split "."
            (String d1 (String d2 (String "." (String m1 (String m2
               (String "." (String y1 (String y2 (String y3
                  (String y4 EmptyString)))))))))) =
          [String d1 (String d2 EmptyString);
           String m1 (String m2 EmptyString);
           String y1 (String y2 (String y3 (String y4 EmptyString)))]) as Hs.
  { cbn [split].
    repeat match goal with
           | H : is_digit ?c = true |- _ =>
               rewrite (digit_not_dot c H); clear H
           end.
    reflexivity. }
  unfold ymd_of_dmy. rewrite Hs. split; reflexivity.
Qed.

Lemma period_at_groups (s g1 g2 : string) :
  period_at s = Some (g1, g2) ->
  (exists s1 r1, dmy_group s1 = Some (g1, r1)) /\
  (exists s2 r2, dmy_group s2 = Some (g2, r2)).
Proof.
  unfold period_at, obind. intros H.
  destruct (literal_ci "from" s) as [s1|]; [|discriminate].
  destruct (spaces1 s1) as [s2|]; [|discriminate].
  destruct (dmy_group s2) as [[g1' s3]|] eqn:E1; [|discriminate].
  destruct (spaces1 s3) as [s4|]; [|discriminate].
  destruct (literal_ci "to" s4) as [s5|]; [|discriminate].
  destruct (spaces1 s5) as [s6|]; [|discriminate].
  destruct (dmy_group s6) as [[g2' s7]|] eqn:E2; [|discriminate].
  injection H as <- <-. split; [now exists s2, s3|now exists s6, s7].
Qed.

Lemma search_period_eq (s : string) :
  search_period s =
    match period_at s with
    | Some g => Some g
    | None =>
        match s with
        | EmptyString => None
        | String _ r => search_period r
        end
    end.
Proof. destruct s; reflexivity. Qed.

Lemma search_period_groups (s g1 g2 : string) :
  search_period s = Some (g1, g2) ->
  (exists s1 r1, dmy_group s1 = Some (g1, r1)) /\
  (exists s2 r2, dmy_group s2 = Some (g2, r2)).
Proof.
  induction s as [|c r IH]; rewrite search_period_eq.
  - destruct (period_at EmptyString) as [[a b]|] eqn:E; [|discriminate].
    intros [= <- <-]. exact (period_at_groups _ _ _ E).
  - destruct (period_at (String c r)) as [[a b]|] eqn:E; [|exact IH].
    intros [= <- <-]. exact (period_at_groups _ _ _ E).
Qed.

Lemma search_period_ymd (s g1 g2 : string) :
  search_period s = Some (g1, g2) ->
  ymd_of_dmy g1 = Ok (swap_dmy g1) /\
  ymd_of_dmy g2 = Ok (swap_dmy g2) /\
  get (split "." g2) 2 = Ok (substring 6 4 g2).
Proof.
  intros H. destruct (search_period_groups _ _ _ H)
    as [(s1 & r1 & H1) (s2 & r2 & H2)].
  destruct (dmy_group_ymd _ _ _ H1) as [E1 _].
  destruct (dmy_group_ymd _ _ _ H2) as [E2 E3].
  now repeat split.
Qed.

End PeriodFacts.

Module BalanceFacts.

(** The balance loop over [range(a, a + n)] stays inside the list and
    returns the first money token of its window. *)
Lemma find_balance_window (lines : list string) (a n : nat) :
  a + n <= length lines ->
  find_balance lines (seq a n) = Ok (balance_in (window lines a n)).
Proof.
  revert a. induction n as [|n IH]; intros a Hb.
  - unfold window. now rewrite firstn_O.
  - cbn [seq find_balance].
    destruct (get_lt lines a) as (l & Hg & Hn); [lia|].
    rewrite Hg. cbn [bind]. unfold window.
    rewrite (skipn_nth _ _ _ Hn). cbn [firstn].
    unfold balance_in, match_balance. cbn [find].
    destruct (is_money_token l); [reflexivity|].
    rewrite IH by lia. reflexivity.
Qed.

Lemma window_clip (lines : list string) (a n : nat) :
  a <= length lines ->
  window lines a (min (a + n) (length lines) - a) = window lines a n.
Proof.
  intros Ha. unfold window.
  destruct (Nat.le_ge_cases (a + n) (length lines)) as [H | H].
  - rewrite Nat.min_l by exact H. f_equal. lia.
  - rewrite Nat.min_r by exact H.
    rewrite !firstn_all2 by (rewrite length_skipn; lia). reflexivity.
Qed.

Lemma window_past_end (lines : list string) (a n : nat) :
  length lines <= a -> window lines a n = [].
Proof.
  intros H. unfold window. rewrite skipn_all2 by exact H. apply firstn_nil.
Qed.

(** [range(a, min(b, len(lines)))] with [b = a + n] *)
Lemma find_balance_range (lines : list string) (a n : nat) :
  find_balance lines (range a (min (a + n) (length lines))) =
    Ok (balance_in (window lines a n)).
Proof.
  unfold range.
  destruct (Nat.le_gt_cases a (length lines)) as [H | H].
  - rewrite find_balance_window by lia. now rewrite window_clip.
  - replace (min (a + n) (length lines) - a) with 0 by lia.
    rewrite window_past_end by lia. reflexivity.
Qed.

Lemma balance_in_stripped (ls : list string) :
  (forall l, In l ls -> strip l = l) ->
  balance_in ls = find is_money_token ls.
Proof.
  intros Hs. unfold balance_in.
  destruct (find is_money_token ls) as [l|] eqn:E; [|reflexivity].
  apply find_some in E. destruct E as [Hin _]. cbn [option_map].
  now rewrite (stripped_chomp _ (Hs l Hin)), (Hs l Hin).
Qed.

Lemma In_window (lines : list string) (a n : nat) (l : string) :
  In l (window lines a n) -> In l lines.
Proof.
  unfold window. intros H. apply In_skipn with a.
  revert H. generalize (skipn a lines). clear.
  intros xs. revert n. induction xs as [|x r IH]; intros [|n] H; cbn in *;
    try contradiction.
  destruct H as [-> | H]; [now left|right; eauto].
Qed.

End BalanceFacts.

(** * The metadata loops never raise *)

Module RawMeta.

Lemma raw_period_step_Ok (line : string) (m : Raw.Metadata) :
  Raw.period_step line m = Ok (RawSteps.period line m).
Proof.
  unfold Raw.period_step, RawSteps.period.
  destruct (search_period line) as [[g1 g2]|] eqn:E; [|reflexivity].
  destruct (PeriodFacts.search_period_ymd _ _ _ E) as (-> & -> & _).
  reflexivity.
Qed.

Lemma raw_opening_step_Ok (lines : list string) (i : nat) (line : string)
    (m : Raw.Metadata) :
  Raw.opening_step lines i line m = Ok (RawSteps.opening lines i line m).
Proof.
  unfold Raw.opening_step, RawSteps.opening, RawSteps.opening_label.
  destruct (contains "previous balance" (lower line)
            || contains "balance as at" (lower line)); [|reflexivity].
  now rewrite BalanceFacts.find_balance_range.
Qed.

Lemma raw_closing_step_Ok (lines : list string) (i : nat) (line : string)
    (m : Raw.Metadata) :
  Raw.closing_step lines i line m = Ok (RawSteps.closing lines i line m).
Proof.
  unfold Raw.closing_step, RawSteps.closing, RawSteps.closing_label.
  destruct (String.eqb (lower line) "new balance"); [|reflexivity].
  replace (i + 5) with (i + 1 + 4) by lia.
  now rewrite BalanceFacts.find_balance_range.
Qed.

Lemma raw_step_Ok (lines : list string) (i : nat) (line : string)
    (m : Raw.Metadata) :
  Raw.step lines i line m = Ok (RawSteps.step lines i line m).
Proof.
  unfold Raw.step, RawSteps.step.
  rewrite raw_period_step_Ok. cbn [bind]. rewrite raw_opening_step_Ok. cbn [bind].
  apply raw_closing_step_Ok.
Qed.

Lemma raw_loop_Ok (lines rest : list string) (i : nat) (m : Raw.Metadata) :
  Raw.loop lines i rest m = Ok (RawSteps.loop lines i rest m).
Proof.
  revert i m. induction rest as [|line rest IH]; intros i m; [reflexivity|].
  cbn [Raw.loop RawSteps.loop]. rewrite raw_step_Ok. cbn [bind]. apply IH.
Qed.

Lemma raw_loop_app (lines xs ys : list string) (i : nat) (m : Raw.Metadata) :
  RawSteps.loop lines i (xs ++ ys) m =
  RawSteps.loop lines (i + length xs) ys (RawSteps.loop lines i xs m).
Proof.
  revert i m. induction xs as [|x xs IH]; intros i m; cbn [app length].
  - now rewrite Nat.add_0_r.
  - cbn [RawSteps.loop]. rewrite IH. f_equal. lia.
Qed.

(** A property every iteration preserves holds after the loop. *)
Lemma raw_loop_inv (P : Raw.Metadata -> Prop) (Q : nat -> string -> Prop)
    (lines : list string) :
  (forall k l m, Q k l -> P m -> P (RawSteps.step lines k l m)) ->
  forall rest i m,
    (forall k l, nth_error rest k = Some l -> Q (i + k) l) ->
    P m -> P (RawSteps.loop lines i rest m).
Proof.
  intros Hstep rest. induction rest as [|x rest IH]; intros i m HQ Hm;
    [exact Hm|].
  cbn [RawSteps.loop]. apply IH.
  - intros k l Hk. replace (S i + k) with (i + S k) by lia. now apply HQ.
  - apply Hstep; [|exact Hm].
    replace i with (i + 0) by lia. now apply HQ.
Qed.

End RawMeta.

Module DatedMeta.

Lemma dated_period_step_Ok (line : string) (m : Dated.Metadata) :
  Dated.period_step line m = Ok (DatedSteps.period line m).
Proof.
  unfold Dated.period_step, DatedSteps.period.
  destruct (search_period line) as [[g1 g2]|] eqn:E; [|reflexivity].
  destruct (PeriodFacts.search_period_ymd _ _ _ E) as (-> & -> & ->).
  reflexivity.
Qed.

Lemma dated_opening_step_Ok (lines : list string) (i : nat) (line : string)
    (m : Dated.Metadata) :
  Dated.opening_step lines i line m = Ok (DatedSteps.opening lines i line m).
Proof.
  unfold Dated.opening_step, DatedSteps.opening, DatedSteps.opening_label.
  destruct (contains "previous balance" (lower line)
            && negb (truthy_opt (Dated.opening_balance m))); [|reflexivity].
  replace (i + 25) with (i + 1 + 24) by lia.
  now rewrite BalanceFacts.find_balance_range.
Qed.

Lemma dated_closing_step_Ok (lines : list string) (i : nat) (line : string)
    (m : Dated.Metadata) :
  Dated.closing_step lines i line m = Ok (DatedSteps.closing lines i line m).
Proof.
  unfold Dated.closing_step, DatedSteps.closing, DatedSteps.closing_label.
  destruct (contains "new balance" (lower line)
            && negb (truthy_opt (Dated.closing_balance m))); [|reflexivity].
  replace (i + 25) with (i + 1 + 24) by lia.
  now rewrite BalanceFacts.find_balance_range.
Qed.

Lemma dated_step_Ok (lines : list string) (i : nat) (line : string)
    (m : Dated.Metadata) :
  Dated.step lines i line m = Ok (DatedSteps.step lines i line m).
Proof.
  unfold Dated.step, DatedSteps.step.
  rewrite dated_period_step_Ok. cbn [bind]. rewrite dated_opening_step_Ok. cbn [bind].
  apply dated_closing_step_Ok.
Qed.

Lemma dated_loop_Ok (lines rest : list string) (i : nat) (m : Dated.Metadata) :
  Dated.loop lines i rest m = Ok (DatedSteps.loop lines i rest m).
Proof.
  revert i m. induction rest as [|line rest IH]; intros i m; [reflexivity|].
  cbn [Dated.loop DatedSteps.loop]. rewrite dated_step_Ok. cbn [bind]. apply IH.
Qed.

Lemma dated_loop_app (lines xs ys : list string) (i : nat) (m : Dated.Metadata) :
  DatedSteps.loop lines i (xs ++ ys) m =
  DatedSteps.loop lines (i + length xs) ys (DatedSteps.loop lines i xs m).
Proof.
  revert i m. induction xs as [|x xs IH]; intros i m; cbn [app length].
  - now rewrite Nat.add_0_r.
  - cbn [DatedSteps.loop]. rewrite IH. f_equal. lia.
Qed.

(** A property every iteration preserves holds after the loop. *)
Lemma dated_loop_inv (P : Dated.Metadata -> Prop) (Q : nat -> string -> Prop)
    (lines : list string) :
  (forall k l m, Q k l -> P m -> P (DatedSteps.step lines k l m)) ->
  forall rest i m,
    (forall k l, nth_error rest k = Some l -> Q (i + k) l) ->
    P m -> P (DatedSteps.loop lines i rest m).
Proof.
  intros Hstep rest. induction rest as [|x rest IH]; intros i m HQ Hm;
    [exact Hm|].
  cbn [DatedSteps.loop]. apply IH.
  - intros k l Hk. replace (S i + k) with (i + S k) by lia. now apply HQ.
  - apply Hstep; [|exact Hm].
    replace i with (i + 0) by lia. now apply HQ.
Qed.

End DatedMeta.

Lemma nth_error_split {A : Type} (xs : list A) (i : nat) (x : A) :
  nth_error xs i = Some x ->
  xs = firstn i xs ++ x :: skipn (S i) xs /\ length (firstn i xs) = i.
Proof.
  intros H. split.
  - rewrite <- (skipn_nth _ _ _ H). symmetry. apply firstn_skipn.
  - apply firstn_length_le. apply Nat.lt_le_incl, nth_error_Some. congruence.
Qed.

Lemma nth_error_firstn_Some {A : Type} (xs : list A) (i k : nat) (x : A) :
  nth_error (firstn i xs) k = Some x -> k < i /\ nth_error xs k = Some x.
Proof.
  revert i k. induction xs as [|y ys IH]; intros [|i] [|k] H; cbn in *;
    try discriminate.
  - split; [lia|exact H].
  - destruct (IH _ _ H). split; [lia|assumption].
Qed.

(** * The statement period *)

Module RawPeriod.

Lemma raw_opening_period (lines : list string) (k : nat) (l : string)
    (m : Raw.Metadata) :
  Raw.period_from (RawSteps.opening lines k l m) = Raw.period_from m /\
  Raw.period_to (RawSteps.opening lines k l m) = Raw.period_to m /\
  Raw.statement_date (RawSteps.opening lines k l m) = Raw.statement_date m.
Proof.
  unfold RawSteps.opening. destruct (RawSteps.opening_label l); [|now repeat split].
  destruct (balance_in (window lines k 5)); now repeat split.
Qed.

Lemma raw_closing_period (lines : list string) (k : nat) (l : string)
    (m : Raw.Metadata) :
  Raw.period_from (RawSteps.closing lines k l m) = Raw.period_from m /\
  Raw.period_to (RawSteps.closing lines k l m) = Raw.period_to m /\
  Raw.statement_date (RawSteps.closing lines k l m) = Raw.statement_date m.
Proof.
  unfold RawSteps.closing. destruct (RawSteps.closing_label l); [|now repeat split].
  destruct (balance_in (window lines (k + 1) 4)); now repeat split.
Qed.

Lemma raw_step_period (lines : list string) (k : nat) (l : string)
    (m : Raw.Metadata) :
  Raw.period_from (RawSteps.step lines k l m)
    = Raw.period_from (RawSteps.period l m) /\
  Raw.period_to (RawSteps.step lines k l m)
    = Raw.period_to (RawSteps.period l m) /\
  Raw.statement_date (RawSteps.step lines k l m)
    = Raw.statement_date (RawSteps.period l m).
Proof.
  unfold RawSteps.step.
  destruct (raw_closing_period lines k l
              (RawSteps.opening lines k l (RawSteps.period l m)))
    as (-> & -> & ->).
  apply raw_opening_period.
Qed.

(** The line that matches last decides the period. *)
Lemma raw_last_match (lines : list string) (i : nat) (l g1 g2 : string) :
  nth_error lines i = Some l ->
  search_period l = Some (g1, g2) ->
  (forall k l', i < k -> nth_error lines k = Some l' ->
     search_period l' = None) ->
  Raw.period_from (RawSteps.loop lines 0 lines Raw.empty)
    = Some (swap_dmy g1) /\
  Raw.period_to (RawSteps.loop lines 0 lines Raw.empty)
    = Some (swap_dmy g2) /\
  Raw.statement_date (RawSteps.loop lines 0 lines Raw.empty)
    = Some (swap_dmy g2).
Proof.
  intros Hn Hs Hlater.
  destruct (nth_error_split _ _ _ Hn) as [Hsplit Hlen].
  cut (let m := RawSteps.loop lines 0
                  (firstn i lines ++ l :: skipn (S i) lines) Raw.empty in
       Raw.period_from m = Some (swap_dmy g1) /\
       Raw.period_to m = Some (swap_dmy g2) /\
       Raw.statement_date m = Some (swap_dmy g2));
    [now rewrite <- Hsplit|].
  rewrite RawMeta.raw_loop_app, Hlen. cbn [RawSteps.loop]. cbv zeta.
  apply (RawMeta.raw_loop_inv
           (fun m => Raw.period_from m = Some (swap_dmy g1) /\
                     Raw.period_to m = Some (swap_dmy g2) /\
                     Raw.statement_date m = Some (swap_dmy g2))
           (fun k l' => search_period l' = None)).
  - intros k l' m E (Hf & Ht & Hd).
    destruct (raw_step_period lines k l' m) as (-> & -> & ->).
    unfold RawSteps.period. rewrite E. now repeat split.
  - intros k l' Hk. rewrite nth_error_skipn in Hk.
    apply (Hlater (S i + k)); [lia|]. now rewrite <- Hk.
  - destruct (raw_step_period lines (0 + i) l
                (RawSteps.loop lines 0 (firstn i lines) Raw.empty))
      as (Hf & Ht & Hd).
    rewrite Hf, Ht, Hd.
    unfold RawSteps.period. rewrite Hs. now repeat split.
Qed.

Lemma raw_no_match (lines rest : list string) (i : nat) :
  (forall l, In l rest -> search_period l = None) ->
  Raw.period_from (RawSteps.loop lines i rest Raw.empty) = None /\
  Raw.period_to (RawSteps.loop lines i rest Raw.empty) = None /\
  Raw.statement_date (RawSteps.loop lines i rest Raw.empty) = None.
Proof.
  intros Hno.
  apply (RawMeta.raw_loop_inv
           (fun m => Raw.period_from m = None /\ Raw.period_to m = None /\
                     Raw.statement_date m = None)
           (fun _ l => search_period l = None)).
  - intros k l m E H.
    destruct (raw_step_period lines k l m) as (-> & -> & ->).
    unfold RawSteps.period. now rewrite E.
  - intros k l Hk. apply Hno. exact (nth_error_In _ _ Hk).
  - now repeat split.
Qed.

End RawPeriod.

Module DatedPeriod.

Lemma dated_opening_period (lines : list string) (k : nat) (l : string)
    (m : Dated.Metadata) :
  Dated.period_from (DatedSteps.opening lines k l m) = Dated.period_from m /\
  Dated.period_to (DatedSteps.opening lines k l m) = Dated.period_to m /\
  Dated.statement_date (DatedSteps.opening lines k l m)
    = Dated.statement_date m.
Proof.
  unfold DatedSteps.opening.
  destruct (DatedSteps.opening_label l
            && negb (truthy_opt (Dated.opening_balance m)));
    [|now repeat split].
  destruct (balance_in (window lines (k + 1) 24)); now repeat split.
Qed.

Lemma dated_closing_period (lines : list string) (k : nat) (l : string)
    (m : Dated.Metadata) :
  Dated.period_from (DatedSteps.closing lines k l m) = Dated.period_from m /\
  Dated.period_to (DatedSteps.closing lines k l m) = Dated.period_to m /\
  Dated.statement_date (DatedSteps.closing lines k l m)
    = Dated.statement_date m.
Proof.
  unfold DatedSteps.closing.
  destruct (DatedSteps.closing_label l
            && negb (truthy_opt (Dated.closing_balance m)));
    [|now repeat split].
  destruct (balance_in (window lines (k + 1) 24)); now repeat split.
Qed.

Lemma dated_step_period (lines : list string) (k : nat) (l : string)
    (m : Dated.Metadata) :
  Dated.period_from (DatedSteps.step lines k l m)
    = Dated.period_from (DatedSteps.period l m) /\
  Dated.period_to (DatedSteps.step lines k l m)
    = Dated.period_to (DatedSteps.period l m) /\
  Dated.statement_date (DatedSteps.step lines k l m)
    = Dated.statement_date (DatedSteps.period l m).
Proof.
  unfold DatedSteps.step.
  destruct (dated_closing_period lines k l
              (DatedSteps.opening lines k l (DatedSteps.period l m)))
    as (-> & -> & ->).
  apply dated_opening_period.
Qed.

(** The line that matches last decides the period. *)
Lemma dated_last_match (lines : list string) (i : nat) (l g1 g2 : string) :
  nth_error lines i = Some l ->
  search_period l = Some (g1, g2) ->
  (forall k l', i < k -> nth_error lines k = Some l' ->
     search_period l' = None) ->
  Dated.period_from (DatedSteps.loop lines 0 lines Dated.empty)
    = Some (swap_dmy g1) /\
  Dated.period_to (DatedSteps.loop lines 0 lines Dated.empty)
    = Some (swap_dmy g2) /\
  Dated.statement_date (DatedSteps.loop lines 0 lines Dated.empty)
    = Some (swap_dmy g2).
Proof.
  intros Hn Hs Hlater.
  destruct (nth_error_split _ _ _ Hn) as [Hsplit Hlen].
  cut (let m := DatedSteps.loop lines 0
                  (firstn i lines ++ l :: skipn (S i) lines) Dated.empty in
       Dated.period_from m = Some (swap_dmy g1) /\
       Dated.period_to m = Some (swap_dmy g2) /\
       Dated.statement_date m = Some (swap_dmy g2));
    [now rewrite <- Hsplit|].
  rewrite DatedMeta.dated_loop_app, Hlen. cbn [DatedSteps.loop]. cbv zeta.
  apply (DatedMeta.dated_loop_inv
           (fun m => Dated.period_from m = Some (swap_dmy g1) /\
                     Dated.period_to m = Some (swap_dmy g2) /\
                     Dated.statement_date m = Some (swap_dmy g2))
           (fun k l' => search_period l' = None)).
  - intros k l' m E (Hf & Ht & Hd).
    destruct (dated_step_period lines k l' m) as (-> & -> & ->).
    unfold DatedSteps.period. rewrite E. now repeat split.
  - intros k l' Hk. rewrite nth_error_skipn in Hk.
    apply (Hlater (S i + k)); [lia|]. now rewrite <- Hk.
  - destruct (dated_step_period lines (0 + i) l
                (DatedSteps.loop lines 0 (firstn i lines) Dated.empty))
      as (Hf & Ht & Hd).
    rewrite Hf, Ht, Hd.
    unfold DatedSteps.period. rewrite Hs. now repeat split.
Qed.

Lemma dated_no_match (lines rest : list string) (i : nat) :
  (forall l, In l rest -> search_period l = None) ->
  Dated.period_from (DatedSteps.loop lines i rest Dated.empty) = None /\
  Dated.period_to (DatedSteps.loop lines i rest Dated.empty) = None /\
  Dated.statement_date (DatedSteps.loop lines i rest Dated.empty) = None.
Proof.
  intros Hno.
  apply (DatedMeta.dated_loop_inv
           (fun m => Dated.period_from m = None /\ Dated.period_to m = None /\
                     Dated.statement_date m = None)
           (fun _ l => search_period l = None)).
  - intros k l m E H.
    destruct (dated_step_period lines k l m) as (-> & -> & ->).
    unfold DatedSteps.period. now rewrite E.
  - intros k l Hk. apply Hno. exact (nth_error_In _ _ Hk).
  - now repeat split.
Qed.

End DatedPeriod.

Lemma raw_metadata_Ok (text : string) :
  Raw.extract_statement_metadata text =
    Ok (RawSteps.loop (py_lines text) 0 (py_lines text) Raw.empty).
Proof. apply RawMeta.raw_loop_Ok. Qed.

Lemma dated_metadata_Ok (text : string) :
  Dated.extract_statement_metadata text =
    Ok (DatedSteps.loop (py_lines text) 0 (py_lines text) Dated.empty).
Proof. apply DatedMeta.dated_loop_Ok. Qed.

(** C5, as the code has it: both extractors take the statement period from
    the LAST line that matches the period pattern, since every matching
    line assigns the fields again; [period_from] and [period_to] are the
    two dates of that line's leftmost match rearranged from DD.MM.YYYY to
    YYYY-MM-DD, and [statement_date] equals [period_to]. *)
Theorem C5_last_period_line (text : string) (i : nat) (l g1 g2 : string) :
  nth_error (py_lines text) i = Some l ->
  search_period l = Some (g1, g2) ->
  (forall k l', i < k -> nth_error (py_lines text) k = Some l' ->
     search_period l' = None) ->
  (exists m, Raw.extract_statement_metadata text = Ok m /\
     Raw.period_from m = Some (swap_dmy g1) /\
     Raw.period_to m = Some (swap_dmy g2) /\
     Raw.statement_date m = Raw.period_to m) /\
  (exists m, Dated.extract_statement_metadata text = Ok m /\
     Dated.period_from m = Some (swap_dmy g1) /\
     Dated.period_to m = Some (swap_dmy g2) /\
     Dated.statement_date m = Dated.period_to m).
Proof.
  intros Hn Hs Hlater. split.
  - eexists. split; [apply raw_metadata_Ok|].
    destruct (RawPeriod.raw_last_match _ _ _ _ _ Hn Hs Hlater) as (-> & -> & ->).
    now repeat split.
  - eexists. split; [apply dated_metadata_Ok|].
    destruct (DatedPeriod.dated_last_match _ _ _ _ _ Hn Hs Hlater) as (-> & -> & ->).
    now repeat split.
Qed.

(** Two period lines: the second one is the statement period. *)
Lemma C5_last_period_line_witness :
  let text := unlines ["Account statement from 15.12.2020 to 14.01.2021";
                       "from 15.01.2021 to 14.02.2021"] in
  nth_error (py_lines text) 1 = Some "from 15.01.2021 to 14.02.2021" /\
  search_period "from 15.01.2021 to 14.02.2021"
    = Some ("15.01.2021", "14.02.2021") /\
  exists m, Raw.extract_statement_metadata text = Ok m /\
    Raw.period_from m = Some "2021-01-15" /\
    Raw.period_to m = Some "2021-02-14" /\
    Raw.statement_date m = Raw.period_to m.
Proof.
  split; [reflexivity|]. split; [reflexivity|].
  refine (proj1 (C5_last_period_line
            (unlines ["Account statement from 15.12.2020 to 14.01.2021";
                      "from 15.01.2021 to 14.02.2021"])
            1 "from 15.01.2021 to 14.02.2021" "15.01.2021" "14.02.2021"
            eq_refl eq_refl _)).
  intros [|[|[|k]]] l' Hk Hl; try lia; discriminate Hl.
Defined.

(** C5 as the specification words it, with the FIRST matching line fixing
    the period, fails on a text with two period lines: for
    [from 15.12.2020 to 14.01.2021] followed by
    [from 15.01.2021 to 14.02.2021] the extractor returns the period of
    the second line. *)
Lemma C5_first_period_line_counterexample :
  ~ (forall (text : string) (i : nat) (l g1 g2 : string),
       nth_error (py_lines text) i = Some l ->
       search_period l = Some (g1, g2) ->
       (forall k l', k < i -> nth_error (py_lines text) k = Some l' ->
          search_period l' = None) ->
       exists m, Raw.extract_statement_metadata text = Ok m /\
         Raw.period_from m = Some (swap_dmy g1) /\
         Raw.period_to m = Some (swap_dmy g2) /\
         Raw.statement_date m = Raw.period_to m).
Proof.
  intros H.
  destruct (H (unlines ["from 15.12.2020 to 14.01.2021";
                        "from 15.01.2021 to 14.02.2021"])
              0 "from 15.12.2020 to 14.01.2021" "15.12.2020" "14.01.2021"
              eq_refl eq_refl) as (m & Hm & Hf & _).
  - intros k l' Hk. lia.
  - vm_compute in Hm. injection Hm as <-. vm_compute in Hf. discriminate Hf.
Qed.

(** * The opening balance *)

Lemma window_stripped (text : string) (a n : nat) :
  balance_in (window (py_lines text) a n) =
  find is_money_token (window (py_lines text) a n).
Proof.
  apply BalanceFacts.balance_in_stripped. intros l Hl.
  apply (py_lines_stripped text). exact (BalanceFacts.In_window _ _ _ _ Hl).
Qed.

Lemma window_balance_truthy (ls : list string) (v : string) :
  find is_money_token ls = Some v -> truthy v = true.
Proof.
  intros H. apply find_some in H. apply money_token_truthy, H.
Qed.

Module DatedOpening.

Lemma dated_step_opening (lines : list string) (k : nat) (l : string)
    (m : Dated.Metadata) :
  Dated.opening_balance (DatedSteps.step lines k l m) =
    if DatedSteps.opening_label l
       && negb (truthy_opt (Dated.opening_balance m))
    then match balance_in (window lines (k + 1) 24) with
         | Some v => Some v
         | None => Dated.opening_balance m
         end
    else Dated.opening_balance m.
Proof.
  unfold DatedSteps.step.
  assert (forall m', Dated.opening_balance (DatedSteps.closing lines k l m')
                     = Dated.opening_balance m') as ->.
  { intros m'. unfold DatedSteps.closing.
    destruct (DatedSteps.closing_label l
              && negb (truthy_opt (Dated.closing_balance m')));
      [|reflexivity].
    now destruct (balance_in (window lines (k + 1) 24)). }
  assert (Dated.opening_balance (DatedSteps.period l m)
          = Dated.opening_balance m) as Hp.
  { unfold DatedSteps.period. now destruct (search_period l) as [[g1 g2]|]. }
  unfold DatedSteps.opening. rewrite Hp.
  destruct (DatedSteps.opening_label l
            && negb (truthy_opt (Dated.opening_balance m)));
    [|exact Hp].
  destruct (balance_in (window lines (k + 1) 24)); [reflexivity|exact Hp].
Qed.

(** Until a label line finds a token the field stays unset. *)
Lemma stays_unset (lines rest : list string) (i : nat) (m : Dated.Metadata) :
  (forall k l, nth_error rest k = Some l ->
     DatedSteps.opening_label l = true ->
     balance_in (window lines (i + k + 1) 24) = None) ->
  Dated.opening_balance m = None ->
  Dated.opening_balance (DatedSteps.loop lines i rest m) = None.
Proof.
  intros Hno Hm.
  apply (DatedMeta.dated_loop_inv (fun m => Dated.opening_balance m = None)
           (fun k l => DatedSteps.opening_label l = true ->
                       balance_in (window lines (k + 1) 24) = None));
    [|exact Hno|exact Hm].
  intros k l m' HQ Hm'. rewrite dated_step_opening, Hm'.
  destruct (DatedSteps.opening_label l); [|reflexivity].
  cbn [truthy_opt negb andb]. now rewrite HQ.
Qed.

(** Once set, the field is never assigned again. *)
Lemma stays_set (lines rest : list string) (i : nat) (m : Dated.Metadata)
    (v : string) :
  truthy v = true ->
  Dated.opening_balance m = Some v ->
  Dated.opening_balance (DatedSteps.loop lines i rest m) = Some v.
Proof.
  intros Hv Hm.
  apply (DatedMeta.dated_loop_inv (fun m => Dated.opening_balance m = Some v)
           (fun _ _ => True)); [|trivial|exact Hm].
  intros k l m' _ Hm'. rewrite dated_step_opening, Hm'. cbn [truthy_opt].
  now rewrite Hv, andb_false_r.
Qed.

Lemma first_label (lines : list string) (i : nat) (l v : string) :
  nth_error lines i = Some l ->
  DatedSteps.opening_label l = true ->
  balance_in (window lines (i + 1) 24) = Some v ->
  truthy v = true ->
  (forall k l', k < i -> nth_error lines k = Some l' ->
     DatedSteps.opening_label l' = true ->
     balance_in (window lines (k + 1) 24) = None) ->
  Dated.opening_balance (DatedSteps.loop lines 0 lines Dated.empty) = Some v.
Proof.
  intros Hn Hl Hw Hv Hbefore.
  destruct (nth_error_split _ _ _ Hn) as [Hsplit Hlen].
  cut (Dated.opening_balance
         (DatedSteps.loop lines 0
            (firstn i lines ++ l :: skipn (S i) lines) Dated.empty) = Some v);
    [now rewrite <- Hsplit|].
  rewrite DatedMeta.dated_loop_app, Hlen. cbn [DatedSteps.loop].
  apply stays_set; [exact Hv|].
  rewrite dated_step_opening, stays_unset; [| |reflexivity].
  - rewrite Hl. cbn [truthy_opt negb andb plus]. now rewrite Hw.
  - intros k l' Hk Hl'.
    destruct (nth_error_firstn_Some _ _ _ _ Hk) as [Hlt Hk'].
    now apply (Hbefore k l').
Qed.

End DatedOpening.

Module RawOpening.

Lemma raw_step_opening (lines : list string) (k : nat) (l : string)
    (m : Raw.Metadata) :
  Raw.opening_balance (RawSteps.step lines k l m) =
    if RawSteps.opening_label l
    then match balance_in (window lines k 5) with
         | Some v => Some v
         | None => Raw.opening_balance m
         end
    else Raw.opening_balance m.
Proof.
  unfold RawSteps.step.
  assert (forall m', Raw.opening_balance (RawSteps.closing lines k l m')
                     = Raw.opening_balance m') as ->.
  { intros m'. unfold RawSteps.closing.
    destruct (RawSteps.closing_label l); [|reflexivity].
    now destruct (balance_in (window lines (k + 1) 4)). }
  assert (Raw.opening_balance (RawSteps.period l m)
          = Raw.opening_balance m) as Hp.
  { unfold RawSteps.period. now destruct (search_period l) as [[g1 g2]|]. }
  unfold RawSteps.opening.
  destruct (RawSteps.opening_label l); [|exact Hp].
  destruct (balance_in (window lines k 5)); [reflexivity|exact Hp].
Qed.

(** Label lines without a token in their window leave the field alone. *)
Lemma unchanged (lines rest : list string) (i : nat) (m : Raw.Metadata)
    (o : option string) :
  (forall k l, nth_error rest k = Some l ->
     RawSteps.opening_label l = true ->
     balance_in (window lines (i + k) 5) = None) ->
  Raw.opening_balance m = o ->
  Raw.opening_balance (RawSteps.loop lines i rest m) = o.
Proof.
  intros Hno Hm.
  apply (RawMeta.raw_loop_inv (fun m => Raw.opening_balance m = o)
           (fun k l => RawSteps.opening_label l = true ->
                       balance_in (window lines k 5) = None));
    [|exact Hno|exact Hm].
  intros k l m' HQ Hm'. rewrite raw_step_opening.
  destruct (RawSteps.opening_label l); [|exact Hm'].
  now rewrite HQ.
Qed.

(** The last label line with a token in its window decides the field. *)
Lemma last_label (lines : list string) (i : nat) (l v : string) :
  nth_error lines i = Some l ->
  RawSteps.opening_label l = true ->
  balance_in (window lines i 5) = Some v ->
  (forall k l', i < k -> nth_error lines k = Some l' ->
     RawSteps.opening_label l' = true ->
     balance_in (window lines k 5) = None) ->
  Raw.opening_balance (RawSteps.loop lines 0 lines Raw.empty) = Some v.
Proof.
  intros Hn Hl Hw Hafter.
  destruct (nth_error_split _ _ _ Hn) as [Hsplit Hlen].
  cut (Raw.opening_balance
         (RawSteps.loop lines 0
            (firstn i lines ++ l :: skipn (S i) lines) Raw.empty) = Some v);
    [now rewrite <- Hsplit|].
  rewrite RawMeta.raw_loop_app, Hlen. cbn [RawSteps.loop].
  apply unchanged.
  - intros k l' Hk Hl'. rewrite nth_error_skipn in Hk.
    apply (Hafter (S (0 + i) + k) l'); [lia| |exact Hl'].
    now rewrite <- Hk.
  - rewrite raw_step_opening, Hl. cbn [plus]. now rewrite Hw.
Qed.

End RawOpening.

(** C4, as the code has it.  In [src/_src/extract_with_ocr.py] the opening
    balance is set at most once: the first line containing "previous
    balance" (in any case) whose window holds a money token sets it to the
    first money-token line among the 24 lines after the label, label
    lines before it having found none; later label lines leave it alone,
    and when no label line has a money token within its 24 lines the field
    stays null.  In [src/extract_with_ocr.py] the window is the label line
    and the 4 lines after it, "balance as at" is a label too, and the last
    label line that finds a money token decides the field. *)
Theorem C4_opening_balance (text : string) :
  (exists m, Dated.extract_statement_metadata text = Ok m /\
     (forall i l v,
        nth_error (py_lines text) i = Some l ->
        contains "previous balance" (lower l) = true ->
        find is_money_token (window (py_lines text) (i + 1) 24) = Some v ->
        (forall k l', k < i -> nth_error (py_lines text) k = Some l' ->
           contains "previous balance" (lower l') = true ->
           find is_money_token (window (py_lines text) (k + 1) 24) = None) ->
        Dated.opening_balance m = Some v) /\
     ((forall k l', nth_error (py_lines text) k = Some l' ->
         contains "previous balance" (lower l') = true ->
         find is_money_token (window (py_lines text) (k + 1) 24) = None) ->
      Dated.opening_balance m = None)) /\
  (exists m, Raw.extract_statement_metadata text = Ok m /\
     (forall i l v,
        nth_error (py_lines text) i = Some l ->
        contains "previous balance" (lower l)
        || contains "balance as at" (lower l) = true ->
        find is_money_token (window (py_lines text) i 5) = Some v ->
        (forall k l', i < k -> nth_error (py_lines text) k = Some l' ->
           contains "previous balance" (lower l')
           || contains "balance as at" (lower l') = true ->
           find is_money_token (window (py_lines text) k 5) = None) ->
        Raw.opening_balance m = Some v) /\
     ((forall k l', nth_error (py_lines text) k = Some l' ->
         contains "previous balance" (lower l')
         || contains "balance as at" (lower l') = true ->
         find is_money_token (window (py_lines text) k 5) = None) ->
      Raw.opening_balance m = None)).
Proof.
  split.
  - eexists. split; [apply dated_metadata_Ok|]. split.
    + intros i l v Hn Hl Hw Hbefore.
      apply (DatedOpening.first_label _ i l v Hn Hl).
      * now rewrite window_stripped.
      * exact (window_balance_truthy _ _ Hw).
      * intros k l' Hk Hn' Hl'. rewrite window_stripped. eauto.
    + intros Hno. apply DatedOpening.stays_unset; [|reflexivity].
      intros k l' Hn' Hl'. rewrite window_stripped. cbn [plus]. eauto.
  - eexists. split; [apply raw_metadata_Ok|]. split.
    + intros i l v Hn Hl Hw Hafter.
      apply (RawOpening.last_label _ i l v Hn Hl).
      * now rewrite window_stripped.
      * intros k l' Hk Hn' Hl'. rewrite window_stripped. eauto.
    + intros Hno. apply RawOpening.unchanged; [|reflexivity].
      intros k l' Hn' Hl'. rewrite window_stripped. cbn [plus]. eauto.
Qed.

(** A label, a currency line and the balance; a later label with another
    amount does not replace it in the period-aware extractor. *)
Lemma C4_opening_balance_witness :
  let text := unlines ["Previous balance"; "EUR"; "1,200.00";
                       "previous balance"; "7.00"] in
  nth_error (py_lines text) 0 = Some "Previous balance" /\
  contains "previous balance" (lower "Previous balance") = true /\
  find is_money_token (window (py_lines text) (0 + 1) 24) = Some "1,200.00" /\
  exists m, Dated.extract_statement_metadata text = Ok m /\
            Dated.opening_balance m = Some "1,200.00".
Proof.
  split; [reflexivity|]. split; [reflexivity|]. split; [reflexivity|].
  destruct (C4_opening_balance
              (unlines ["Previous balance"; "EUR"; "1,200.00";
                        "previous balance"; "7.00"]))
    as [(m & Hm & Hfirst & _) _].
  exists m. split; [exact Hm|].
  apply (Hfirst 0 "Previous balance" "1,200.00" eq_refl eq_refl eq_refl).
  intros k l' Hk. lia.
Defined.

(** C4 as the specification words it fails on [src/extract_with_ocr.py]:
    a money token five lines after the first "Previous balance" line lies
    within any window of 20 to 25 lines, yet that extractor looks at the
    label line and the next four only and leaves the field null. *)
Lemma C4_window_counterexample :
  ~ (forall (text : string) (i : nat) (l v : string),
       nth_error (py_lines text) i = Some l ->
       contains "previous balance" (lower l) = true ->
       (forall k l', k < i -> nth_error (py_lines text) k = Some l' ->
          contains "previous balance" (lower l') = false) ->
       find is_money_token (window (py_lines text) (i + 1) 20) = Some v ->
       exists m, Raw.extract_statement_metadata text = Ok m /\
                 Raw.opening_balance m = Some v).
Proof.
  intros H.
  destruct (H (unlines ["Previous balance"; "EUR"; "as at"; "15.12.2020";
                        "Credit"; "1,200.00"])
              0 "Previous balance" "1,200.00" eq_refl eq_refl)
    as (m & Hm & Ho).
  - intros k l' Hk. lia.
  - reflexivity.
  - vm_compute in Hm. injection Hm as <-. discriminate Ho.
Qed.

(** * Absent fields and the period handed to the parser *)

Module RawClosing.

Lemma raw_step_closing (lines : list string) (k : nat) (l : string)
    (m : Raw.Metadata) :
  RawSteps.closing_label l = false ->
  Raw.closing_balance (RawSteps.step lines k l m) = Raw.closing_balance m.
Proof.
  intros Hl. unfold RawSteps.step, RawSteps.closing. rewrite Hl.
  unfold RawSteps.opening.
  assert (Raw.closing_balance (RawSteps.period l m) = Raw.closing_balance m)
    as Hp.
  { unfold RawSteps.period. now destruct (search_period l) as [[g1 g2]|]. }
  destruct (RawSteps.opening_label l); [|exact Hp].
  destruct (balance_in (window lines k 5)); exact Hp.
Qed.

Lemma raw_no_label (lines rest : list string) (i : nat) :
  (forall l, In l rest -> RawSteps.closing_label l = false) ->
  Raw.closing_balance (RawSteps.loop lines i rest Raw.empty) = None.
Proof.
  intros Hno.
  apply (RawMeta.raw_loop_inv (fun m => Raw.closing_balance m = None)
           (fun _ l => RawSteps.closing_label l = false)).
  - intros k l m Hl Hm. now rewrite raw_step_closing.
  - intros k l Hk. apply Hno. exact (nth_error_In _ _ Hk).
  - reflexivity.
Qed.

End RawClosing.

Module DatedClosing.

Lemma dated_step_closing (lines : list string) (k : nat) (l : string)
    (m : Dated.Metadata) :
  DatedSteps.closing_label l = false ->
  Dated.closing_balance (DatedSteps.step lines k l m)
    = Dated.closing_balance m.
Proof.
  intros Hl. unfold DatedSteps.step, DatedSteps.closing. rewrite Hl.
  cbn [andb]. unfold DatedSteps.opening.
  assert (Dated.closing_balance (DatedSteps.period l m)
          = Dated.closing_balance m) as Hp.
  { unfold DatedSteps.period. now destruct (search_period l) as [[g1 g2]|]. }
  destruct (DatedSteps.opening_label l
            && negb (truthy_opt (Dated.opening_balance (DatedSteps.period l m))));
    [|exact Hp].
  destruct (balance_in (window lines (k + 1) 24)); exact Hp.
Qed.

Lemma dated_no_label (lines rest : list string) (i : nat) :
  (forall l, In l rest -> DatedSteps.closing_label l = false) ->
  Dated.closing_balance (DatedSteps.loop lines i rest Dated.empty) = None.
Proof.
  intros Hno.
  apply (DatedMeta.dated_loop_inv (fun m => Dated.closing_balance m = None)
           (fun _ l => DatedSteps.closing_label l = false)).
  - intros k l m Hl Hm. now rewrite dated_step_closing.
  - intros k l Hk. apply Hno. exact (nth_error_In _ _ Hk).
  - reflexivity.
Qed.

End DatedClosing.

Module YearFacts.

Lemma digit_not_space (c : ascii) : is_digit c = true -> is_space c = false.
Proof. intros H. TokenFacts.each_digit H; reflexivity. Qed.

Lemma digit_not_dash (c : ascii) : is_digit c = true -> Ascii.eqb c "-" = false.
Proof. intros H. TokenFacts.each_digit H; reflexivity. Qed.

Lemma digit_not_plus (c : ascii) : is_digit c = true -> Ascii.eqb c "+" = false.
Proof. intros H. TokenFacts.each_digit H; reflexivity. Qed.

(** Four digits are a number for [int]. *)
Lemma four_digits_int (a b c d : ascii) :
  is_digit a = true -> is_digit b = true ->
  is_digit c = true -> is_digit d = true ->
  exists v, py_int (String a (String b (String c (String d EmptyString))))
            = Some v.
Proof.
  intros Ha Hb Hc Hd. unfold py_int, strip.
  cbn [lstrip]. rewrite (digit_not_space a Ha).
  cbn [rstrip]. rewrite (digit_not_space a Ha), (digit_not_space b Hb),
    (digit_not_space c Hc), (digit_not_space d Hd).
  cbn [andb]. rewrite (digit_not_dash a Ha), (digit_not_plus a Ha).
  rewrite Ha. cbn [int_digits]. rewrite Ha, Hb, Hc, Hd.
  eexists. reflexivity.
Qed.

End YearFacts.

Module PipelineFacts.

(** The year of a rearranged date group is a number. *)
Lemma year_of_group (s g r : string) :
  dmy_group s = Some (g, r) ->
  exists y, Dated.year_of (Some (swap_dmy g)) = Ok (Some y).
Proof.
  unfold dmy_group.
  destruct s as [|d1 [|d2 [|p1 [|m1 [|m2 [|p2 [|y1 [|y2 [|y3 [|y4 s']]]]]]]]]];
    try discriminate.
  match goal with |- (if ?c then _ else _) = _ -> _ =>
    destruct c eqn:E; [|discriminate] end.
  intros [= <- <-].
  do 9 (apply andb_prop in E; destruct E as [E ?]).
  destruct (YearFacts.four_digits_int y1 y2 y3 y4) as (y & Hy); try assumption.
  exists y. unfold Dated.year_of, swap_dmy.
  cbn [substring append truthy split].
  repeat match goal with
         | H : is_digit ?c = true |- _ =>
             rewrite (YearFacts.digit_not_dash c H); clear H
         end.
  cbn [Ascii.eqb Bool.eqb]. unfold get. cbn [nth_error bind].
  unfold int. now rewrite Hy.
Qed.

Lemma year_of_period (l g1 g2 : string) :
  search_period l = Some (g1, g2) ->
  (exists y, Dated.year_of (Some (swap_dmy g1)) = Ok (Some y)) /\
  (exists y, Dated.year_of (Some (swap_dmy g2)) = Ok (Some y)).
Proof.
  intros H. destruct (PeriodFacts.search_period_groups _ _ _ H)
    as [(s1 & r1 & H1) (s2 & r2 & H2)].
  split; [exact (year_of_group _ _ _ H1)|exact (year_of_group _ _ _ H2)].
Qed.

(** The period bounds the extractor returns are accepted by the parser. *)
Lemma period_years (lines rest : list string) (i : nat) :
  let m := DatedSteps.loop lines i rest Dated.empty in
  (exists y, Dated.year_of (Dated.period_from m) = Ok y) /\
  (exists y, Dated.year_of (Dated.period_to m) = Ok y).
Proof.
  cbv zeta.
  apply (DatedMeta.dated_loop_inv
           (fun m => (exists y, Dated.year_of (Dated.period_from m) = Ok y) /\
                     (exists y, Dated.year_of (Dated.period_to m) = Ok y))
           (fun _ _ => True)); [|trivial|].
  - intros k l m _ [Hf Ht].
    destruct (DatedPeriod.dated_step_period lines k l m) as (-> & -> & _).
    unfold DatedSteps.period.
    destruct (search_period l) as [[g1 g2]|] eqn:E; [|now split].
    destruct (year_of_period _ _ _ E) as [(y1 & H1) (y2 & H2)].
    cbn [Dated.set_period Dated.period_from Dated.period_to].
    split; eauto.
  - split; now exists None.
Qed.

End PipelineFacts.

(** C8: on every text the metadata extractor and the transaction parser
    of both files return normally: no index or value error is raised and
    the fuel of one unit per line and one more is never exhausted, also
    when the period-aware parser is given the period bounds its own
    extractor returned.  Metadata fields whose marker is absent stay
    null. *)
Theorem C8_total (text : string) :
  (exists m, Raw.extract_statement_metadata text = Ok m /\
     ((forall l, In l (py_lines text) -> search_period l = None) ->
      Raw.period_from m = None /\ Raw.period_to m = None /\
      Raw.statement_date m = None) /\
     ((forall l, In l (py_lines text) ->
         contains "previous balance" (lower l)
         || contains "balance as at" (lower l) = false) ->
      Raw.opening_balance m = None) /\
     ((forall l, In l (py_lines text) ->
         String.eqb (lower l) "new balance" = false) ->
      Raw.closing_balance m = None)) /\
  (exists ts, Raw.extract_transactions text = Ok ts /\
     forall fuel, length (py_lines text) < fuel ->
       Raw.extract_transactions_fuel fuel text = Ok ts) /\
  (exists m, Dated.extract_statement_metadata text = Ok m /\
     ((forall l, In l (py_lines text) -> search_period l = None) ->
      Dated.period_from m = None /\ Dated.period_to m = None /\
      Dated.statement_date m = None) /\
     ((forall l, In l (py_lines text) ->
         contains "previous balance" (lower l) = false) ->
      Dated.opening_balance m = None) /\
     ((forall l, In l (py_lines text) ->
         contains "new balance" (lower l) = false) ->
      Dated.closing_balance m = None) /\
     exists ts,
       Dated.extract_transactions text
         (Dated.period_from m) (Dated.period_to m) = Ok ts) /\
  (exists ts, Dated.extract_transactions text None None = Ok ts /\
     forall fuel, length (py_lines text) < fuel ->
       Dated.extract_transactions_fuel fuel text None None = Ok ts).
Proof.
  destruct (raw_extract_total text) as (ts & Hts & Hfuel).
  split; [|split; [|split]].
  - eexists. split; [apply raw_metadata_Ok|]. split; [|split].
    + apply RawPeriod.raw_no_match.
    + intros Hno. apply RawOpening.unchanged; [|reflexivity].
      intros k l Hk Hl. unfold RawSteps.opening_label in Hl.
      rewrite (Hno l (nth_error_In _ _ Hk)) in Hl. discriminate.
    + apply RawClosing.raw_no_label.
  - now exists ts.
  - eexists. split; [apply dated_metadata_Ok|]. split; [|split; [|split]].
    + apply DatedPeriod.dated_no_match.
    + intros Hno. apply DatedOpening.stays_unset; [|reflexivity].
      intros k l Hk Hl. unfold DatedSteps.opening_label in Hl.
      rewrite (Hno l (nth_error_In _ _ Hk)) in Hl. discriminate.
    + apply DatedClosing.dated_no_label.
    + destruct (PipelineFacts.period_years (py_lines text) (py_lines text) 0)
        as [(yf & Hf) (yt & Ht)].
      eexists. unfold Dated.extract_transactions.
      rewrite dated_extract_redate, Hf, Ht. cbn [bind].
      fold (Raw.extract_transactions text). rewrite Hts. reflexivity.
  - exists ts. split.
    + unfold Dated.extract_transactions, Dated.extract_transactions_fuel.
      cbn [Dated.year_of bind]. rewrite DatedFacts.scan_no_period.
      exact Hts.
    + intros fuel Hf. unfold Dated.extract_transactions_fuel.
      cbn [Dated.year_of bind]. rewrite DatedFacts.scan_no_period.
      now apply Hfuel.
Qed.

(** Outside the extractor's own output the period-aware parser can raise:
    a bound whose year is no number is converted before any [try]. *)
Remark dated_parser_raises_on_bad_bound :
  Dated.extract_transactions EmptyString (Some "x") None = Raise ValueError.
Proof. reflexivity. Qed.

(** The end-to-end scenario of the specification: a period line, a
    "Previous balance" label followed within three lines by its amount,
    and one block. *)
Example end_to_end_scenario :
  let text :=
    unlines ["Account statement from 15.12.2020 to 14.01.2021";
             "Previous balance"; "EUR"; "1,200.00";
             "12/16"; "12/16"; "Card payment"; "- 45.00"] in
  exists m,
    Dated.extract_statement_metadata text = Ok m /\
    Dated.period_from m = Some "2020-12-15" /\
    Dated.period_to m = Some "2021-01-14" /\
    Dated.opening_balance m = Some "1,200.00" /\
    Dated.extract_transactions text (Dated.period_from m) (Dated.period_to m)
      = Ok [mkTransaction "2020-12-16" "2020-12-16" "Card payment" "- 45.00"] /\
    Raw.extract_transactions text
      = Ok [mkTransaction "12/16" "12/16" "Card payment" "- 45.00"].
Proof.
  eexists. split; [vm_compute; reflexivity|]. vm_compute. now repeat split.
Qed.

(** * The closing balance *)

Module DatedClosingFacts.

Lemma dated_closing_eq (lines : list string) (k : nat) (l : string)
    (m : Dated.Metadata) :
  Dated.closing_balance (DatedSteps.step lines k l m) =
    if DatedSteps.closing_label l
       && negb (truthy_opt (Dated.closing_balance m))
    then match balance_in (window lines (k + 1) 24) with
         | Some v => Some v
         | None => Dated.closing_balance m
         end
    else Dated.closing_balance m.
Proof.
  unfold DatedSteps.step.
  assert (Dated.closing_balance
            (DatedSteps.opening lines k l (DatedSteps.period l m))
          = Dated.closing_balance m) as Hp.
  { unfold DatedSteps.opening, DatedSteps.period.
    destruct (search_period l) as [[g1 g2]|];
      destruct (DatedSteps.opening_label l && _); try reflexivity;
      now destruct (balance_in (window lines (k + 1) 24)). }
  unfold DatedSteps.closing at 1. rewrite Hp.
  destruct (DatedSteps.closing_label l
            && negb (truthy_opt (Dated.closing_balance m)));
    [|exact Hp].
  destruct (balance_in (window lines (k + 1) 24)); [reflexivity|exact Hp].
Qed.

Lemma closing_stays_unset (lines rest : list string) (i : nat)
    (m : Dated.Metadata) :
  (forall k l, nth_error rest k = Some l ->
     DatedSteps.closing_label l = true ->
     balance_in (window lines (i + k + 1) 24) = None) ->
  Dated.closing_balance m = None ->
  Dated.closing_balance (DatedSteps.loop lines i rest m) = None.
Proof.
  intros Hno Hm.
  apply (DatedMeta.dated_loop_inv (fun m => Dated.closing_balance m = None)
           (fun k l => DatedSteps.closing_label l = true ->
                       balance_in (window lines (k + 1) 24) = None));
    [|exact Hno|exact Hm].
  intros k l m' HQ Hm'. rewrite dated_closing_eq, Hm'.
  destruct (DatedSteps.closing_label l); [|reflexivity].
  cbn [truthy_opt negb andb]. now rewrite HQ.
Qed.

Lemma closing_stays_set (lines rest : list string) (i : nat)
    (m : Dated.Metadata) (v : string) :
  truthy v = true ->
  Dated.closing_balance m = Some v ->
  Dated.closing_balance (DatedSteps.loop lines i rest m) = Some v.
Proof.
  intros Hv Hm.
  apply (DatedMeta.dated_loop_inv (fun m => Dated.closing_balance m = Some v)
           (fun _ _ => True)); [|trivial|exact Hm].
  intros k l m' _ Hm'. rewrite dated_closing_eq, Hm'. cbn [truthy_opt].
  now rewrite Hv, andb_false_r.
Qed.

Lemma closing_first_label (lines : list string) (i : nat) (l v : string) :
  nth_error lines i = Some l ->
  DatedSteps.closing_label l = true ->
  balance_in (window lines (i + 1) 24) = Some v ->
  truthy v = true ->
  (forall k l', k < i -> nth_error lines k = Some l' ->
     DatedSteps.closing_label l' = true ->
     balance_in (window lines (k + 1) 24) = None) ->
  Dated.closing_balance (DatedSteps.loop lines 0 lines Dated.empty) = Some v.
Proof.
  intros Hn Hl Hw Hv Hbefore.
  destruct (nth_error_split _ _ _ Hn) as [Hsplit Hlen].
  cut (Dated.closing_balance
         (DatedSteps.loop lines 0
            (firstn i lines ++ l :: skipn (S i) lines) Dated.empty) = Some v);
    [now rewrite <- Hsplit|].
  rewrite DatedMeta.dated_loop_app, Hlen. cbn [DatedSteps.loop].
  apply closing_stays_set; [exact Hv|].
  rewrite dated_closing_eq, closing_stays_unset; [| |reflexivity].
  - rewrite Hl. cbn [truthy_opt negb andb plus]. now rewrite Hw.
  - intros k l' Hk Hl'.
    destruct (nth_error_firstn_Some _ _ _ _ Hk) as [Hlt Hk'].
    now apply (Hbefore k l').
Qed.

End DatedClosingFacts.

Module RawClosingFacts.

Lemma raw_closing_eq (lines : list string) (k : nat) (l : string)
    (m : Raw.Metadata) :
  Raw.closing_balance (RawSteps.step lines k l m) =
    if RawSteps.closing_label l
    then match balance_in (window lines (k + 1) 4) with
         | Some v => Some v
         | None => Raw.closing_balance m
         end
    else Raw.closing_balance m.
Proof.
  unfold RawSteps.step.
  assert (Raw.closing_balance
            (RawSteps.opening lines k l (RawSteps.period l m))
          = Raw.closing_balance m) as Hp.
  { unfold RawSteps.opening, RawSteps.period.
    destruct (search_period l) as [[g1 g2]|];
      destruct (RawSteps.opening_label l); try reflexivity;
      now destruct (balance_in (window lines k 5)). }
  unfold RawSteps.closing at 1.
  destruct (RawSteps.closing_label l); [|exact Hp].
  destruct (balance_in (window lines (k + 1) 4)); [reflexivity|exact Hp].
Qed.

Lemma closing_unchanged (lines rest : list string) (i : nat)
    (m : Raw.Metadata) (o : option string) :
  (forall k l, nth_error rest k = Some l ->
     RawSteps.closing_label l = true ->
     balance_in (window lines (i + k + 1) 4) = None) ->
  Raw.closing_balance m = o ->
  Raw.closing_balance (RawSteps.loop lines i rest m) = o.
Proof.
  intros Hno Hm.
  apply (RawMeta.raw_loop_inv (fun m => Raw.closing_balance m = o)
           (fun k l => RawSteps.closing_label l = true ->
                       balance_in (window lines (k + 1) 4) = None));
    [|exact Hno|exact Hm].
  intros k l m' HQ Hm'. rewrite raw_closing_eq.
  destruct (RawSteps.closing_label l); [|exact Hm'].
  now rewrite HQ.
Qed.

Lemma closing_last_label (lines : list string) (i : nat) (l v : string) :
  nth_error lines i = Some l ->
  RawSteps.closing_label l = true ->
  balance_in (window lines (i + 1) 4) = Some v ->
  (forall k l', i < k -> nth_error lines k = Some l' ->
     RawSteps.closing_label l' = true ->
     balance_in (window lines (k + 1) 4) = None) ->
  Raw.closing_balance (RawSteps.loop lines 0 lines Raw.empty) = Some v.
Proof.
  intros Hn Hl Hw Hafter.
  destruct (nth_error_split _ _ _ Hn) as [Hsplit Hlen].
  cut (Raw.closing_balance
         (RawSteps.loop lines 0
            (firstn i lines ++ l :: skipn (S i) lines) Raw.empty) = Some v);
    [now rewrite <- Hsplit|].
  rewrite RawMeta.raw_loop_app, Hlen. cbn [RawSteps.loop].
  apply closing_unchanged.
  - intros k l' Hk Hl'. rewrite nth_error_skipn in Hk.
    apply (Hafter (S (0 + i) + k) l'); [lia| |exact Hl'].
    now rewrite <- Hk.
  - rewrite raw_closing_eq, Hl. cbn [plus]. now rewrite Hw.
Qed.

End RawClosingFacts.

(** X1: in [src/_src/extract_with_ocr.py] the closing balance is set at
    most once: the first line containing "new balance" (in any case) that
    has a money token among the 24 lines after it sets it to the first
    such token; label lines before it have found nothing, label lines
    after it change nothing. *)
Theorem X1_dated_closing_first_label (text : string) (i : nat) (l v : string) :
  nth_error (py_lines text) i = Some l ->
  contains "new balance" (lower l) = true ->
  find is_money_token (window (py_lines text) (i + 1) 24) = Some v ->
  (forall k l', k < i -> nth_error (py_lines text) k = Some l' ->
     contains "new balance" (lower l') = true ->
     find is_money_token (window (py_lines text) (k + 1) 24) = None) ->
  exists m, Dated.extract_statement_metadata text = Ok m /\
            Dated.closing_balance m = Some v.
Proof.
  intros Hn Hl Hw Hbefore.
  eexists. split; [apply dated_metadata_Ok|].
  apply (DatedClosingFacts.closing_first_label _ i l v Hn Hl).
  - now rewrite window_stripped.
  - exact (window_balance_truthy _ _ Hw).
  - intros k l' Hk Hn' Hl'. rewrite window_stripped. eauto.
Qed.

Lemma X1_dated_closing_first_label_witness :
  let text := unlines ["New balance"; "EUR"; "+ 980.50";
                       "Your new balance"; "1.00"] in
  nth_error (py_lines text) 0 = Some "New balance" /\
  contains "new balance" (lower "New balance") = true /\
  find is_money_token (window (py_lines text) (0 + 1) 24) = Some "+ 980.50" /\
  exists m, Dated.extract_statement_metadata text = Ok m /\
            Dated.closing_balance m = Some "+ 980.50".
Proof.
  split; [reflexivity|]. split; [reflexivity|]. split; [reflexivity|].
  apply (X1_dated_closing_first_label
           (unlines ["New balance"; "EUR"; "+ 980.50";
                     "Your new balance"; "1.00"])
           0 "New balance" "+ 980.50" eq_refl eq_refl eq_refl).
  intros k l' Hk. lia.
Defined.

(** X2: in [src/extract_with_ocr.py] only a line that is "new balance"
    itself (in any case) is a closing label; it looks at the 4 lines after
    it, and the last label line that finds a money token there decides
    the closing balance. *)
Theorem X2_raw_closing_last_label (text : string) (i : nat) (l v : string) :
  nth_error (py_lines text) i = Some l ->
  String.eqb (lower l) "new balance" = true ->
  find is_money_token (window (py_lines text) (i + 1) 4) = Some v ->
  (forall k l', i < k -> nth_error (py_lines text) k = Some l' ->
     String.eqb (lower l') "new balance" = true ->
     find is_money_token (window (py_lines text) (k + 1) 4) = None) ->
  exists m, Raw.extract_statement_metadata text = Ok m /\
            Raw.closing_balance m = Some v.
Proof.
  intros Hn Hl Hw Hafter.
  eexists. split; [apply raw_metadata_Ok|].
  apply (RawClosingFacts.closing_last_label _ i l v Hn Hl).
  - now rewrite window_stripped.
  - intros k l' Hk Hn' Hl'. rewrite window_stripped. eauto.
Qed.

Lemma X2_raw_closing_last_label_witness :
  let text := unlines ["New balance"; "1.00"; "NEW BALANCE"; "EUR";
                       "+ 980.50"] in
  nth_error (py_lines text) 2 = Some "NEW BALANCE" /\
  String.eqb (lower "NEW BALANCE") "new balance" = true /\
  find is_money_token (window (py_lines text) (2 + 1) 4) = Some "+ 980.50" /\
  exists m, Raw.extract_statement_metadata text = Ok m /\
            Raw.closing_balance m = Some "+ 980.50".
Proof.
  split; [reflexivity|]. split; [reflexivity|]. split; [reflexivity|].
  apply (X2_raw_closing_last_label
           (unlines ["New balance"; "1.00"; "NEW BALANCE"; "EUR"; "+ 980.50"])
           2 "NEW BALANCE" "+ 980.50" eq_refl eq_refl eq_refl).
  intros k l' Hk Hl Hlab.
  do 5 (destruct k as [|k];
        [try lia; vm_compute in Hl; injection Hl as <-; discriminate Hlab|]).
  vm_compute in Hl. destruct k; discriminate Hl.
Defined.

(** * What the metadata fields can hold *)

Module FieldFacts.

Lemma dmy_group_iso (s g r : string) :
  dmy_group s = Some (g, r) ->
  is_ymd (swap_dmy g) = true /\
  substring 6 4 g = substring 0 4 (swap_dmy g).
Proof.
  unfold dmy_group.
  destruct s as [|d1 [|d2 [|p1 [|m1 [|m2 [|p2 [|y1 [|y2 [|y3 [|y4 s']]]]]]]]]];
    try discriminate.
  match goal with |- (if ?c then _ else _) = _ -> _ =>
    destruct c eqn:E; [|discriminate] end.
  intros [= <- <-].
  do 9 (apply andb_prop in E; destruct E as [E ?]).
  unfold swap_dmy. cbn [substring append is_ymd].
  repeat match goal with
         | H : is_digit _ = true |- _ => rewrite H; clear H
         end.
  split; reflexivity.
Qed.

Lemma search_period_iso (l g1 g2 : string) :
  search_period l = Some (g1, g2) ->
  is_ymd (swap_dmy g1) = true /\ is_ymd (swap_dmy g2) = true /\
  substring 6 4 g2 = substring 0 4 (swap_dmy g2).
Proof.
  intros H. destruct (PeriodFacts.search_period_groups _ _ _ H)
    as [(s1 & r1 & H1) (s2 & r2 & H2)].
  destruct (dmy_group_iso _ _ _ H1) as [E1 _].
  destruct (dmy_group_iso _ _ _ H2) as [E2 E3].
  now repeat split.
Qed.

Lemma dated_step_year (lines : list string) (k : nat) (l : string)
    (m : Dated.Metadata) :
  Dated.year (DatedSteps.step lines k l m) = Dated.year (DatedSteps.period l m).
Proof.
  unfold DatedSteps.step, DatedSteps.closing, DatedSteps.opening.
  destruct (DatedSteps.closing_label l && _);
    [destruct (balance_in (window lines (k + 1) 24))|];
    cbn [Dated.set_closing Dated.year];
    (destruct (DatedSteps.opening_label l && _);
     [destruct (balance_in (window lines (k + 1) 24))|]); reflexivity.
Qed.

Lemma balance_in_line (ls : list string) (v : string) :
  (forall l, In l ls -> strip l = l) ->
  balance_in ls = Some v -> In v ls /\ is_money_token v = true.
Proof.
  intros Hs H. rewrite (BalanceFacts.balance_in_stripped _ Hs) in H.
  exact (find_some _ _ H).
Qed.

Lemma window_line (lines : list string) (a n : nat) (v : string) :
  (forall l, In l lines -> strip l = l) ->
  balance_in (window lines a n) = Some v ->
  In v lines /\ is_money_token v = true.
Proof.
  intros Hs H. apply balance_in_line in H.
  - destruct H as [Hin Hm]. split; [|exact Hm].
    exact (BalanceFacts.In_window _ _ _ _ Hin).
  - intros l Hl. apply Hs. exact (BalanceFacts.In_window _ _ _ _ Hl).
Qed.

End FieldFacts.

(** X3: on every text, in both files, the three period fields are null
    together or set together; when set, [period_from] and [period_to]
    have the shape YYYY-MM-DD (digits and dashes) and [statement_date] is
    [period_to]. *)
Theorem X3_period_fields_together (text : string) :
  (exists m, Raw.extract_statement_metadata text = Ok m /\
     ((Raw.period_from m = None /\ Raw.period_to m = None /\
       Raw.statement_date m = None) \/
      (exists a b, Raw.period_from m = Some a /\ Raw.period_to m = Some b /\
         Raw.statement_date m = Some b /\
         is_ymd a = true /\ is_ymd b = true))) /\
  (exists m, Dated.extract_statement_metadata text = Ok m /\
     ((Dated.period_from m = None /\ Dated.period_to m = None /\
       Dated.statement_date m = None) \/
      (exists a b, Dated.period_from m = Some a /\ Dated.period_to m = Some b /\
         Dated.statement_date m = Some b /\
         is_ymd a = true /\ is_ymd b = true))).
Proof.
  split.
  - eexists. split; [apply raw_metadata_Ok|].
    apply (RawMeta.raw_loop_inv
             (fun m =>
                (Raw.period_from m = None /\ Raw.period_to m = None /\
                 Raw.statement_date m = None) \/
                (exists a b, Raw.period_from m = Some a /\
                   Raw.period_to m = Some b /\ Raw.statement_date m = Some b /\
                   is_ymd a = true /\ is_ymd b = true))
             (fun _ _ => True)); [|trivial|now left].
    intros k l m _ Hm.
    destruct (RawPeriod.raw_step_period (py_lines text) k l m)
      as (-> & -> & ->).
    unfold RawSteps.period.
    destruct (search_period l) as [[g1 g2]|] eqn:E; [|exact Hm].
    destruct (FieldFacts.search_period_iso _ _ _ E) as (H1 & H2 & _).
    right. exists (swap_dmy g1), (swap_dmy g2). now repeat split.
  - eexists. split; [apply dated_metadata_Ok|].
    apply (DatedMeta.dated_loop_inv
             (fun m =>
                (Dated.period_from m = None /\ Dated.period_to m = None /\
                 Dated.statement_date m = None) \/
                (exists a b, Dated.period_from m = Some a /\
                   Dated.period_to m = Some b /\
                   Dated.statement_date m = Some b /\
                   is_ymd a = true /\ is_ymd b = true))
             (fun _ _ => True)); [|trivial|now left].
    intros k l m _ Hm.
    destruct (DatedPeriod.dated_step_period (py_lines text) k l m)
      as (-> & -> & ->).
    unfold DatedSteps.period.
    destruct (search_period l) as [[g1 g2]|] eqn:E; [|exact Hm].
    destruct (FieldFacts.search_period_iso _ _ _ E) as (H1 & H2 & _).
    right. exists (swap_dmy g1), (swap_dmy g2). now repeat split.
Qed.

(** X4: in [src/_src/extract_with_ocr.py] the [year] field is null exactly
    when [period_to] is, and otherwise holds the first four characters of
    [period_to]: the year of the period's end. *)
Theorem X4_year_of_period_end (text : string) :
  exists m, Dated.extract_statement_metadata text = Ok m /\
    Dated.year m =
      match Dated.period_to m with
      | Some b => Some (substring 0 4 b)
      | None => None
      end.
Proof.
  eexists. split; [apply dated_metadata_Ok|].
  apply (DatedMeta.dated_loop_inv
           (fun m => Dated.year m =
                     match Dated.period_to m with
                     | Some b => Some (substring 0 4 b)
                     | None => None
                     end)
           (fun _ _ => True)); [|trivial|reflexivity].
  intros k l m _ Hm.
  rewrite FieldFacts.dated_step_year.
  destruct (DatedPeriod.dated_step_period (py_lines text) k l m)
    as (_ & -> & _).
  unfold DatedSteps.period.
  destruct (search_period l) as [[g1 g2]|] eqn:E; [|exact Hm].
  destruct (FieldFacts.search_period_iso _ _ _ E) as (_ & _ & H3).
  cbn [Dated.set_period Dated.year Dated.period_to]. now rewrite H3.
Qed.

(** X5: on every text, in both files, a balance that is not null is one of
    the trimmed lines of the text and matches the money-token pattern:
    the extractor never builds or reformats an amount. *)
Theorem X5_balances_are_lines (text : string) :
  (exists m, Raw.extract_statement_metadata text = Ok m /\
     (forall v, Raw.opening_balance m = Some v ->
        In v (py_lines text) /\ is_money_token v = true) /\
     (forall v, Raw.closing_balance m = Some v ->
        In v (py_lines text) /\ is_money_token v = true)) /\
  (exists m, Dated.extract_statement_metadata text = Ok m /\
     (forall v, Dated.opening_balance m = Some v ->
        In v (py_lines text) /\ is_money_token v = true) /\
     (forall v, Dated.closing_balance m = Some v ->
        In v (py_lines text) /\ is_money_token v = true)).
Proof.
  pose proof (py_lines_stripped text) as Hs.
  split.
  - eexists. split; [apply raw_metadata_Ok|].
    apply (RawMeta.raw_loop_inv
             (fun m =>
                (forall v, Raw.opening_balance m = Some v ->
                   In v (py_lines text) /\ is_money_token v = true) /\
                (forall v, Raw.closing_balance m = Some v ->
                   In v (py_lines text) /\ is_money_token v = true))
             (fun _ _ => True)); [|trivial|split; discriminate].
    intros k l m _ [Ho Hc]. split; intros v.
    + rewrite RawOpening.raw_step_opening.
      destruct (RawSteps.opening_label l); [|apply Ho].
      destruct (balance_in (window (py_lines text) k 5)) as [w|] eqn:E;
        [|apply Ho].
      intros [= <-]. exact (FieldFacts.window_line _ _ _ _ Hs E).
    + rewrite RawClosingFacts.raw_closing_eq.
      destruct (RawSteps.closing_label l); [|apply Hc].
      destruct (balance_in (window (py_lines text) (k + 1) 4)) as [w|] eqn:E;
        [|apply Hc].
      intros [= <-]. exact (FieldFacts.window_line _ _ _ _ Hs E).
  - eexists. split; [apply dated_metadata_Ok|].
    apply (DatedMeta.dated_loop_inv
             (fun m =>
                (forall v, Dated.opening_balance m = Some v ->
                   In v (py_lines text) /\ is_money_token v = true) /\
                (forall v, Dated.closing_balance m = Some v ->
                   In v (py_lines text) /\ is_money_token v = true))
             (fun _ _ => True)); [|trivial|split; discriminate].
    intros k l m _ [Ho Hc]. split; intros v.
    + rewrite DatedOpening.dated_step_opening.
      destruct (DatedSteps.opening_label l && _); [|apply Ho].
      destruct (balance_in (window (py_lines text) (k + 1) 24)) as [w|] eqn:E;
        [|apply Ho].
      intros [= <-]. exact (FieldFacts.window_line _ _ _ _ Hs E).
    + rewrite DatedClosingFacts.dated_closing_eq.
      destruct (DatedSteps.closing_label l && _); [|apply Hc].
      destruct (balance_in (window (py_lines text) (k + 1) 24)) as [w|] eqn:E;
        [|apply Hc].
      intros [= <-]. exact (FieldFacts.window_line _ _ _ _ Hs E).
Qed.

(** * The period-aware parser beside the plain one *)

Module BoundFacts.




End BoundFacts.





(** * Where the cursor goes *)

Module CursorFacts.

Lemma falsy_empty (s : string) : truthy s = false -> s = EmptyString.
Proof. now destruct s. Qed.

(** The lines [skip_blank] passes are empty, and the cursor only moves
    forward, never past the end. *)
Lemma skip_blank_sound (fuel : nat) (lines : list string) (i i1 : nat) :
  skip_blank fuel lines i = Ok i1 ->
  i <= i1 /\ (i1 <= length lines \/ i1 = i) /\
  forall k, i <= k < i1 -> nth_error lines k = Some EmptyString.
Proof.
  revert i. induction fuel as [|fuel IH]; intros i H; [discriminate|].
  cbn [skip_blank] in H.
  destruct (i <? length lines) eqn:Hi;
    [|injection H as <-; repeat split; [lia|now right|intros; lia]].
  apply Nat.ltb_lt in Hi.
  run (get lines i) as [l| |] eqn:Hg in H.
  destruct (truthy l) eqn:Ht; cbn [negb] in H.
  - injection H as <-. repeat split; [lia|left; lia|intros; lia].
  - destruct (IH _ H) as (Hle & Hmax & Hblank).
    split; [lia|]. split; [left; lia|].
    intros k Hk. destruct (Nat.eq_dec k i) as [-> | Hne].
    + apply get_Ok in Hg. now rewrite Hg, (falsy_empty _ Ht).
    + apply Hblank. lia.
Qed.

(** Every line the body loop consumes adds at most one to what it has
    collected. *)
Lemma collect_body_count (fuel : nat) (lines : list string) (i : nat)
    (parts : list string) (amt : option string)
    (parts' : list string) (amt' : option string) (i' : nat) :
  collect_body fuel lines i parts amt = Ok (parts', amt', i') ->
  i <= i' /\ (i' <= length lines \/ i' = i) /\
  length parts' + found amt' <= length parts + found amt + (i' - i).
Proof.
  revert i parts amt.
  induction fuel as [|fuel IH]; intros i parts amt H; [discriminate|].
  cbn [collect_body] in H.
  destruct (i <? length lines) eqn:Hi;
    [|injection H as <- <- <-; repeat split; [lia|now right|lia]].
  apply Nat.ltb_lt in Hi.
  run (get lines i) as [l| |] eqn:Hg in H.
  destruct (is_date_token l);
    [injection H as <- <- <-; repeat split; [lia|left; lia|lia]|].
  destruct (is_marker l);
    [injection H as <- <- <-; repeat split; [lia|left; lia|lia]|].
  destruct (is_money_token l).
  - destruct (IH _ _ _ H) as (Hle & Hmax & Hcount).
    cbn [found] in Hcount. split; [lia|]. split; [left; lia|].
    destruct amt; cbn [found]; lia.
  - destruct (IH _ _ _ H) as (Hle & Hmax & Hcount).
    split; [lia|]. split; [left; lia|].
    destruct (truthy l); [rewrite length_app in Hcount; cbn [length] in Hcount|];
      lia.
Qed.

Lemma no_value_date_false (lines : list string) (i : nat) :
  no_value_date lines i = Ok false ->
  i < length lines /\
  exists v, get lines i = Ok v /\ is_date_token v = true.
Proof.
  unfold no_value_date. destruct (length lines <=? i) eqn:E; [discriminate|].
  apply Nat.leb_gt in E. intros H.
  destruct (get lines i) as [v| |]; cbn [bind] in H; try discriminate.
  split; [exact E|]. exists v. split; [reflexivity|].
  injection H as H. now apply negb_false_iff.
Qed.

Lemma emit_length (acc : list Transaction) (bd vd : string)
    (parts : list string) (amt : option string) :
  length (Raw.emit acc bd vd parts amt) = length acc \/
  (length (Raw.emit acc bd vd parts amt) = length acc + 1 /\
   2 <= length parts + found amt).
Proof.
  unfold Raw.emit. destruct amt as [a|]; [|now left].
  destruct (truthy (description_of parts) && truthy a) eqn:E; [|now left].
  right. rewrite length_app. split; [reflexivity|].
  destruct parts; [discriminate E|cbn [length found]; lia].
Qed.

(** A transaction takes at least four lines. *)
Lemma scan_count (lines : list string) (fuel i : nat)
    (acc ts : list Transaction) :
  Raw.scan fuel lines i acc = Ok ts ->
  4 * length ts <= 4 * length acc + (length lines - i).
Proof.
  revert i acc.
  induction fuel as [|fuel IH]; intros i acc H; [discriminate|].
  cbn [Raw.scan] in H.
  destruct (i <? length lines) eqn:Hi; [|injection H as <-; lia].
  apply Nat.ltb_lt in Hi.
  run (get lines i) as [line| |] eqn:Hg in H.
  destruct (is_date_token line); [|apply IH in H; lia].
  run (skip_blank fuel lines (i + 1)) as [i1| |] eqn:Hs in H.
  destruct (skip_blank_sound _ _ _ _ Hs) as (Hle1 & _ & _).
  run (no_value_date lines i1) as [stop| |] eqn:Hv in H.
  destruct stop; [apply IH in H; lia|].
  destruct (no_value_date_false _ _ Hv) as [Hi1 _].
  run (get lines i1) as [value| |] eqn:Hg1 in H.
  run (collect_body fuel lines (i1 + 1) [] None)
    as [[[parts amt] i2]| |] eqn:Hc in H.
  destruct (collect_body_count _ _ _ _ _ _ _ _ Hc) as (Hle2 & Hmax & Hcount).
  cbn [length found] in Hcount.
  apply IH in H.
  destruct (emit_length acc line value parts amt) as [E | [E Htwo]];
    rewrite E in H; lia.
Qed.

Lemma emit_pairs (lines : list string) (acc : list Transaction)
    (bd vd : string) (parts : list string) (amt : option string) (i j : nat) :
  Forall (date_pair lines) acc ->
  i < j ->
  nth_error lines i = Some bd -> nth_error lines j = Some vd ->
  is_date_token bd = true -> is_date_token vd = true ->
  (forall k, i < k < j -> nth_error lines k = Some EmptyString) ->
  Forall (date_pair lines) (Raw.emit acc bd vd parts amt).
Proof.
  intros Hacc Hij Hi Hj Hb Hv Hblank. unfold Raw.emit.
  destruct amt as [a|]; [|exact Hacc].
  destruct (truthy (description_of parts) && truthy a); [|exact Hacc].
  apply Forall_app. split; [exact Hacc|].
  constructor; [|constructor]. exists i, j. now repeat split.
Qed.

Lemma scan_pairs (lines : list string) (fuel i : nat)
    (acc ts : list Transaction) :
  Raw.scan fuel lines i acc = Ok ts ->
  Forall (date_pair lines) acc -> Forall (date_pair lines) ts.
Proof.
  revert i acc.
  induction fuel as [|fuel IH]; intros i acc H Hacc; [discriminate|].
  cbn [Raw.scan] in H.
  destruct (i <? length lines); [|now injection H as <-].
  run (get lines i) as [line| |] eqn:Hg in H.
  destruct (is_date_token line) eqn:Hd; [|exact (IH _ _ H Hacc)].
  run (skip_blank fuel lines (i + 1)) as [i1| |] eqn:Hs in H.
  destruct (skip_blank_sound _ _ _ _ Hs) as (Hle1 & _ & Hblank).
  run (no_value_date lines i1) as [stop| |] eqn:Hv in H.
  destruct stop; [exact (IH _ _ H Hacc)|].
  destruct (no_value_date_false _ _ Hv) as (_ & v & Hgv & Hdv).
  rewrite Hgv in H. cbn [bind] in H.
  run (collect_body fuel lines (i1 + 1) [] None)
    as [[[parts amt] i2]| |] eqn:Hc in H.
  apply (IH _ _ H).
  apply (emit_pairs lines acc line v parts amt i i1); try assumption.
  - lia.
  - now apply get_Ok.
  - now apply get_Ok.
  - intros k Hk. apply Hblank. lia.
Qed.

End CursorFacts.

(** X8: the two dates of every transaction the parser of
    [src/extract_with_ocr.py] emits are date tokens of the text, unchanged:
    the booking date at some line, the value date at a later line, and
    only empty lines between the two. *)
Theorem X8_dates_are_a_token_pair (text : string) :
  exists ts, Raw.extract_transactions text = Ok ts /\
             Forall (date_pair (py_lines text)) ts.
Proof.
  destruct (raw_extract_total text) as (ts & Hts & _).
  exists ts. split; [exact Hts|].
  exact (CursorFacts.scan_pairs _ _ _ _ _ Hts (Forall_nil _)).
Qed.

(** X9: a transaction takes a booking date, a value date, a description
    line and an amount line, so a text of n lines yields at most n/4
    transactions, from either parser. *)
Theorem X9_four_lines_per_transaction (text : string) :
  (exists ts, Raw.extract_transactions text = Ok ts /\
              4 * length ts <= length (py_lines text)) /\
  (forall pf pt ts, Dated.extract_transactions text pf pt = Ok ts ->
     4 * length ts <= length (py_lines text)).
Proof.
  assert (forall ts, Raw.extract_transactions text = Ok ts ->
            4 * length ts <= length (py_lines text)) as H.
  { intros ts Hts. apply CursorFacts.scan_count in Hts.
    cbn [length] in Hts. lia. }
  split.
  - destruct (raw_extract_total text) as (ts & Hts & _).
    exists ts. split; [exact Hts|now apply H].
  - intros pf pt ts' Hd.
    destruct (dated_extract_Ok _ _ _ _ Hd) as (ts & Hts & ->).
    rewrite length_map. now apply H.
Qed.

(** X10: a booking date alone starts nothing: when no two date tokens of
    the text stand with only empty lines between them, neither parser
    emits a transaction, whatever else the text holds. *)
Theorem X10_no_pair_no_transaction (text : string) :
  (forall i j bd vd,
     i < j ->
     nth_error (py_lines text) i = Some bd ->
     nth_error (py_lines text) j = Some vd ->
     is_date_token bd = true ->
     is_date_token vd = true ->
     exists k l, i < k < j /\ nth_error (py_lines text) k = Some l /\
                 truthy l = true) ->
  Raw.extract_transactions text = Ok [] /\
  (forall pf pt ts, Dated.extract_transactions text pf pt = Ok ts -> ts = []).
Proof.
  intros Hsep.
  assert (Raw.extract_transactions text = Ok []) as Hraw.
  { destruct (raw_extract_total text) as (ts & Hts & _).
    pose proof (CursorFacts.scan_pairs _ _ _ _ _ Hts (Forall_nil _)) as Hp.
    destruct ts as [|t ts]; [exact Hts|].
    apply Forall_inv in Hp.
    destruct Hp as (i & j & Hij & Hi & Hj & Hb & Hv & Hblank).
    destruct (Hsep i j _ _ Hij Hi Hj Hb Hv) as (k & l & Hk & Hl & Ht).
    rewrite (Hblank k Hk) in Hl. injection Hl as <-. discriminate Ht. }
  split; [exact Hraw|].
  intros pf pt ts' Hd.
  destruct (dated_extract_Ok _ _ _ _ Hd) as (ts & Hts & ->).
  rewrite Hraw in Hts. now injection Hts as <-.
Qed.

Lemma X10_no_pair_no_transaction_witness :
  let text := unlines ["12/16"; "Card payment"; "12/17"; "- 45.00"] in
  (forall i j bd vd,
     i < j ->
     nth_error (py_lines text) i = Some bd ->
     nth_error (py_lines text) j = Some vd ->
     is_date_token bd = true ->
     is_date_token vd = true ->
     exists k l, i < k < j /\ nth_error (py_lines text) k = Some l /\
                 truthy l = true) /\
  Raw.extract_transactions text = Ok [].
Proof.
  cbv zeta.
  assert (forall i j bd vd,
     i < j ->
     nth_error (py_lines (unlines ["12/16"; "Card payment"; "12/17";
                                   "- 45.00"])) i = Some bd ->
     nth_error (py_lines (unlines ["12/16"; "Card payment"; "12/17";
                                   "- 45.00"])) j = Some vd ->
     is_date_token bd = true ->
     is_date_token vd = true ->
     exists k l, i < k < j /\
       nth_error (py_lines (unlines ["12/16"; "Card payment"; "12/17";
                                     "- 45.00"])) k = Some l /\
       truthy l = true) as H.
  { intros i j bd vd Hij Hi Hj Hb Hv.
    exists 1, "Card payment".
    destruct i as [|[|[|[|i]]]]; vm_compute in Hi;
      try (destruct i; discriminate Hi); injection Hi as <-;
      try discriminate Hb;
      destruct j as [|[|[|[|j]]]]; vm_compute in Hj;
      try (destruct j; discriminate Hj); injection Hj as <-;
      try discriminate Hv; try lia.
    repeat split; lia. }
  split; [exact H|].
  exact (proj1 (X10_no_pair_no_transaction _ H)).
Defined.

(** * Resolving twice *)

Module SlashFacts.

Lemma has_char_app (c : ascii) (a b : string) :
  has_char c (a ++ b) = has_char c a || has_char c b.
Proof.
  induction a as [|x r IH]; cbn [append has_char]; [reflexivity|].
  now rewrite IH, orb_assoc.
Qed.

Lemma uint_no_slash (d : Decimal.uint) :
  has_char "/" (NilEmpty.string_of_uint d) = false.
Proof.
  induction d; cbn [NilEmpty.string_of_uint has_char]; try exact IHd.
  reflexivity.
Qed.

Lemma str_of_int_no_slash (n : Z) : has_char "/" (str_of_int n) = false.
Proof.
  unfold str_of_int, NilZero.string_of_int, NilZero.string_of_uint.
  destruct (Z.to_int n) as [d|d];
    [destruct d|cbn [has_char]; destruct d];
    try reflexivity; apply uint_no_slash.
Qed.

Lemma format_02d_no_slash (n : Z) : has_char "/" (format_02d n) = false.
Proof.
  unfold format_02d.
  destruct (Nat.ltb (String.length (str_of_int n)) 2); cbn [has_char];
    apply str_of_int_no_slash.
Qed.

Lemma iso_no_slash (y m d : Z) : has_char "/" (iso y m d) = false.
Proof.
  unfold iso. rewrite !has_char_app.
  now rewrite str_of_int_no_slash, !format_02d_no_slash.
Qed.

Lemma split_whole (sep : ascii) (s : string) :
  has_char sep s = false -> split sep s = [s].
Proof.
  induction s as [|c r IH]; cbn [has_char split]; [reflexivity|].
  intros H. apply orb_false_elim in H. destruct H as [Hc Hr].
  now rewrite Hc, (IH Hr).
Qed.

Lemma no_slash_no_token (s : string) :
  has_char "/" s = false -> parse_token s = None.
Proof.
  intros H. unfold parse_token. now rewrite (split_whole _ _ H).
Qed.

End SlashFacts.

(** X11: resolving is idempotent: what [convert_mm_dd_to_full_date]
    returns for a token it returns again when given its own result with
    the same period bounds, so a date is never resolved twice into
    something else. *)
Theorem X11_resolve_idempotent (mm_dd : string) (pf pt : option string) :
  exists s,
    Dated.convert_mm_dd_to_full_date mm_dd pf pt = Ok s /\
    Dated.convert_mm_dd_to_full_date s pf pt = Ok s.
Proof.
  destruct pf as [from|]; [|now exists mm_dd].
  destruct pt as [to|]; [|now exists mm_dd].
  destruct (parse_token mm_dd) as [[month day]|] eqn:Hk;
    [|exists mm_dd; split; apply ResolverFacts.convert_unparsed; now left].
  destruct (parse_period from) as [[[fy fm] fd]|] eqn:Hf;
    [|exists mm_dd; split; apply ResolverFacts.convert_unparsed;
      now right; left].
  destruct (parse_period to) as [[[ty tm] td]|] eqn:Ht;
    [|exists mm_dd; split; apply ResolverFacts.convert_unparsed;
      now right; right].
  exists (iso (Dated.assign_year month fy fm ty) month day). split.
  - exact (ResolverFacts.convert_parsed _ _ _ _ _ _ _ _ _ _ _ Hk Hf Ht).
  - apply ResolverFacts.convert_unparsed. left.
    apply SlashFacts.no_slash_no_token, SlashFacts.iso_no_slash.
Qed.

(** * Fields of one line *)

Module LineFacts.

Lemma split_lacks_sep (sep : ascii) (s : string) :
  Forall (fun x => has_char sep x = false) (split sep s).
Proof.
  induction s as [|c r IH]; cbn [split]; [now repeat constructor|].
  destruct (Ascii.eqb c sep) eqn:E; [now constructor|].
  destruct (split sep r) as [|h t]; [now repeat constructor; cbn; rewrite E|].
  inversion IH as [|? ? Hh Ht]; subst.
  constructor; [|exact Ht]. cbn [has_char]. now rewrite E, Hh.
Qed.

Lemma lstrip_lacks (c : ascii) (s : string) :
  has_char c s = false -> has_char c (lstrip s) = false.
Proof.
  induction s as [|x r IH]; cbn [lstrip]; [trivial|].
  intros H. destruct (is_space x); [|exact H].
  apply IH. cbn [has_char] in H. now apply orb_false_elim in H.
Qed.

Lemma rstrip_lacks (c : ascii) (s : string) :
  has_char c s = false -> has_char c (rstrip s) = false.
Proof.
  induction s as [|x r IH]; cbn [rstrip]; [trivial|].
  intros H. cbn [has_char] in H. apply orb_false_elim in H.
  destruct H as [Hx Hr].
  destruct (is_space x && negb (truthy (rstrip r))); [reflexivity|].
  cbn [has_char]. now rewrite Hx, (IH Hr).
Qed.

Lemma strip_lacks (c : ascii) (s : string) :
  has_char c s = false -> has_char c (strip s) = false.
Proof.
  intros H. unfold strip. now apply rstrip_lacks, lstrip_lacks.
Qed.

Lemma py_lines_one_line (text l : string) :
  In l (py_lines text) -> has_char newline l = false.
Proof.
  unfold py_lines. intros H. apply in_map_iff in H.
  destruct H as (x & <- & Hx). apply strip_lacks.
  pose proof (split_lacks_sep newline text) as Hall.
  rewrite Forall_forall in Hall. now apply Hall.
Qed.

Lemma join_lacks (c : ascii) (sep : string) (parts : list string) :
  has_char c sep = false ->
  Forall (fun p => has_char c p = false) parts ->
  has_char c (join sep parts) = false.
Proof.
  intros Hsep. induction 1 as [|p rest Hp Hrest IH]; [reflexivity|].
  cbn [join]. destruct rest as [|q rest']; [exact Hp|].
  rewrite !SlashFacts.has_char_app, Hp, Hsep. exact IH.
Qed.

Lemma complete_one_line (text : string) (t : Transaction) :
  complete (py_lines text) t ->
  has_char newline (description t) = false /\
  has_char newline (amount t) = false /\
  strip (description t) = description t /\
  strip (amount t) = amount t.
Proof.
  intros (_ & _ & Ha & parts & Hd & Hparts).
  split; [|split; [|split]].
  - rewrite Hd. apply strip_lacks, join_lacks; [reflexivity|].
    eapply Forall_impl; [|exact Hparts].
    intros p (Hin & _). exact (py_lines_one_line _ _ Hin).
  - exact (py_lines_one_line _ _ Ha).
  - rewrite Hd. apply strip_idem.
  - exact (py_lines_stripped _ _ Ha).
Qed.

End LineFacts.

(** X12: the description and the amount of every emitted transaction hold
    no newline and have no white space at either end, in both files: each
    is a field of one line. *)
Theorem X12_fields_of_one_line (text : string) :
  (exists ts, Raw.extract_transactions text = Ok ts /\
     Forall (fun t =>
               has_char newline (description t) = false /\
               has_char newline (amount t) = false /\
               strip (description t) = description t /\
               strip (amount t) = amount t) ts) /\
  (forall pf pt ts, Dated.extract_transactions text pf pt = Ok ts ->
     Forall (fun t =>
               has_char newline (description t) = false /\
               has_char newline (amount t) = false /\
               strip (description t) = description t /\
               strip (amount t) = amount t) ts).
Proof.
  split.
  - destruct (raw_extract_total text) as (ts & Hts & _).
    exists ts. split; [exact Hts|].
    eapply Forall_impl; [|exact (raw_extract_complete _ _ Hts)].
    intros t. apply LineFacts.complete_one_line.
  - intros pf pt ts' Hd.
    destruct (dated_extract_Ok _ _ _ _ Hd) as (ts & Hts & ->).
    apply Forall_map.
    eapply Forall_impl; [|exact (raw_extract_complete _ _ Hts)].
    intros t Ht. exact (LineFacts.complete_one_line _ _ Ht).
Qed.

(** * Lines already passed do not matter *)

Module ShiftFacts.

Lemma get_shift (pre xs : list string) (i : nat) :
  get (pre ++ xs) (length pre + i) = get xs i.
Proof.
  unfold get. rewrite nth_error_app2 by lia.
  now replace (length pre + i - length pre) with i by lia.
Qed.

Lemma ltb_shift (pre xs : list string) (i : nat) :
  (length pre + i <? length (pre ++ xs)) = (i <? length xs).
Proof.
  rewrite length_app.
  destruct (i <? length xs) eqn:E.
  - apply Nat.ltb_lt in E. apply Nat.ltb_lt. lia.
  - apply Nat.ltb_ge in E. apply Nat.ltb_ge. lia.
Qed.

Lemma skip_blank_shift (fuel : nat) (pre xs : list string) (i : nat) :
  skip_blank fuel (pre ++ xs) (length pre + i) =
  fmap (Nat.add (length pre)) (skip_blank fuel xs i).
Proof.
  revert i. induction fuel as [|fuel IH]; intros i; [reflexivity|].
  cbn [skip_blank]. rewrite ltb_shift, get_shift.
  destruct (i <? length xs); [|reflexivity].
  destruct (get xs i) as [l| |]; cbn [bind fmap]; try reflexivity.
  destruct (truthy l); cbn [negb]; [reflexivity|].
  rewrite <- Nat.add_assoc. apply IH.
Qed.

Lemma no_value_date_shift (pre xs : list string) (i : nat) :
  no_value_date (pre ++ xs) (length pre + i) = no_value_date xs i.
Proof.
  unfold no_value_date. rewrite get_shift, length_app.
  destruct (length xs <=? i) eqn:E.
  - apply Nat.leb_le in E.
    assert ((length pre + length xs <=? length pre + i) = true) as ->;
      [apply Nat.leb_le; lia|reflexivity].
  - apply Nat.leb_gt in E.
    assert ((length pre + length xs <=? length pre + i) = false) as ->;
      [apply Nat.leb_gt; lia|reflexivity].
Qed.

Lemma collect_body_shift (fuel : nat) (pre xs : list string) (i : nat)
    (parts : list string) (amt : option string) :
  collect_body fuel (pre ++ xs) (length pre + i) parts amt =
  fmap (fun r => let '(p, a, j) := r in (p, a, length pre + j))
    (collect_body fuel xs i parts amt).
Proof.
  revert i parts amt. induction fuel as [|fuel IH]; intros i parts amt;
    [reflexivity|].
  cbn [collect_body]. rewrite ltb_shift, get_shift.
  destruct (i <? length xs); [|reflexivity].
  destruct (get xs i) as [l| |]; cbn [bind fmap]; try reflexivity.
  destruct (is_date_token l); [reflexivity|].
  destruct (is_marker l); [reflexivity|].
  destruct (is_money_token l); rewrite <- Nat.add_assoc; apply IH.
Qed.

(** The scan from a cursor on is the scan of the lines from there on. *)
Lemma scan_shift (fuel : nat) (pre xs : list string) (i : nat)
    (acc : list Transaction) :
  Raw.scan fuel (pre ++ xs) (length pre + i) acc = Raw.scan fuel xs i acc.
Proof.
  revert i acc. induction fuel as [|fuel IH]; intros i acc; [reflexivity|].
  cbn [Raw.scan]. rewrite ltb_shift, get_shift.
  destruct (i <? length xs); [|reflexivity].
  destruct (get xs i) as [line| |]; cbn [bind]; try reflexivity.
  destruct (is_date_token line);
    [|rewrite <- Nat.add_assoc; apply IH].
  rewrite <- Nat.add_assoc, skip_blank_shift.
  destruct (skip_blank fuel xs (i + 1)) as [i1| |]; cbn [bind fmap];
    try reflexivity.
  rewrite no_value_date_shift.
  destruct (no_value_date xs i1) as [stop| |]; cbn [bind]; try reflexivity.
  destruct stop; [apply IH|].
  rewrite get_shift.
  destruct (get xs i1) as [value| |]; cbn [bind]; try reflexivity.
  rewrite <- Nat.add_assoc, collect_body_shift.
  destruct (collect_body fuel xs (i1 + 1) [] None) as [[[parts amt] i2]| |];
    cbn [bind fmap]; try reflexivity.
  apply IH.
Qed.

Lemma emit_app (acc : list Transaction) (bd vd : string)
    (parts : list string) (amt : option string) :
  Raw.emit acc bd vd parts amt = acc ++ Raw.emit [] bd vd parts amt.
Proof.
  unfold Raw.emit. destruct amt as [a|]; [|now rewrite app_nil_r].
  destruct (truthy (description_of parts) && truthy a);
    [reflexivity|now rewrite app_nil_r].
Qed.

(** What the scan has collected so far only stands in front of the rest. *)
Lemma scan_acc (fuel : nat) (lines : list string) (i : nat)
    (acc : list Transaction) :
  Raw.scan fuel lines i acc = fmap (app acc) (Raw.scan fuel lines i []).
Proof.
  revert i acc. induction fuel as [|fuel IH]; intros i acc; [reflexivity|].
  cbn [Raw.scan].
  destruct (i <? length lines); [|cbn [fmap]; now rewrite app_nil_r].
  destruct (get lines i) as [line| |]; cbn [bind fmap]; try reflexivity.
  destruct (is_date_token line); [|apply IH].
  destruct (skip_blank fuel lines (i + 1)) as [i1| |]; cbn [bind fmap];
    try reflexivity.
  destruct (no_value_date lines i1) as [stop| |]; cbn [bind fmap];
    try reflexivity.
  destruct stop; [apply IH|].
  destruct (get lines i1) as [value| |]; cbn [bind fmap]; try reflexivity.
  destruct (collect_body fuel lines (i1 + 1) [] None)
    as [[[parts amt] i2]| |]; cbn [bind fmap]; try reflexivity.
  rewrite (IH i2 (Raw.emit acc line value parts amt)).
  rewrite (IH i2 (Raw.emit [] line value parts amt)).
  rewrite (emit_app acc).
  destruct (Raw.scan fuel lines i2 []); cbn [fmap]; try reflexivity.
  now rewrite app_assoc.
Qed.

(** With enough fuel the amount of fuel does not matter. *)
Lemma scan_fuel (lines : list string) (f1 f2 i : nat)
    (acc : list Transaction) :
  length lines - i < f1 -> length lines - i < f2 ->
  Raw.scan f1 lines i acc = Raw.scan f2 lines i acc.
Proof.
  intros H1 H2.
  destruct (RawFacts.scan_total lines f1 i acc H1) as (ts & Hts).
  now rewrite (Hts f1 H1), (Hts f2 H2).
Qed.

End ShiftFacts.

Module BlockSplit.

Lemma take_while_stop {A : Type} (p : A -> bool) (xs rest : list A) :
  Forall (fun x => p x = true) xs ->
  rest = [] \/ (exists y r, rest = y :: r /\ p y = false) ->
  take_while p (xs ++ rest) = xs.
Proof.
  intros Hxs Hrest. induction Hxs as [|x r Hx _ IH]; cbn [app take_while].
  - destruct Hrest as [-> | (y & r & -> & Hy)]; [reflexivity|].
    cbn [take_while]. now rewrite Hy.
  - now rewrite Hx, IH.
Qed.

(** A block at the head of the lines: the scan emits it and goes on with
    the lines after its body. *)
Lemma scan_block (bd vd : string) (blanks body rest : list string)
    (fuel : nat) (acc : list Transaction) :
  is_date_token bd = true ->
  is_date_token vd = true ->
  Forall (fun l => truthy l = false) blanks ->
  Forall body_line body ->
  rest = [] \/ (exists y r, rest = y :: r /\ ends_body y = true) ->
  length (bd :: blanks ++ vd :: body ++ rest) < fuel ->
  Raw.scan fuel (bd :: blanks ++ vd :: body ++ rest) 0 acc =
  Raw.scan (S (length rest)) rest 0
    (Raw.emit acc bd vd (text_lines body)
       (match last_money body with
        | Some a => Some (strip a)
        | None => None
        end)).
Proof.
  intros Hb Hv Hblanks Hbody Hrest Hf.
  assert (blank_run (blanks ++ vd :: body ++ rest) 0 = blanks) as Hbr.
  { unfold blank_run. cbn [skipn]. apply take_while_stop.
    - eapply Forall_impl; [|exact Hblanks]. intros l Hl. now rewrite Hl.
    - right. exists vd, (body ++ rest). split; [reflexivity|].
      now rewrite (date_token_truthy _ Hv). }
  assert (block_body (body ++ rest) 0 = body) as Hbb.
  { unfold block_body. cbn [skipn]. apply take_while_stop.
    - eapply Forall_impl; [|exact Hbody]. intros l [Hd Hm].
      unfold ends_body. now rewrite Hd, Hm.
    - destruct Hrest as [-> | (y & r & -> & Hy)]; [now left|right].
      exists y, r. split; [reflexivity|]. now rewrite Hy. }
  cbn [length] in Hf. rewrite !length_app in Hf. cbn [length] in Hf.
  rewrite length_app in Hf.
  set (out := Raw.scan (S (length rest)) rest 0 _).
  set (L := bd :: blanks ++ vd :: body ++ rest).
  assert (L = [bd] ++ (blanks ++ vd :: body ++ rest)) as E1 by reflexivity.
  assert (L = (bd :: blanks) ++ (vd :: body ++ rest)) as E2 by reflexivity.
  assert (L = (bd :: blanks ++ [vd]) ++ (body ++ rest)) as E3
    by (unfold L; cbn [app]; now rewrite <- app_assoc).
  assert (L = (bd :: blanks ++ vd :: body) ++ rest) as E4
    by (unfold L; cbn [app]; now rewrite <- !app_assoc).
  destruct fuel as [|fuel]; [lia|]. cbn [Raw.scan].
  change (0 <? length L) with true.
  change (get L 0) with (Ok bd).
  cbn [bind]. rewrite Hb.
  assert (skip_blank fuel L (0 + 1) = Ok (length (bd :: blanks) + 0)) as ->.
  { rewrite E1.
    change (0 + 1) with (length [bd] + 0).
    rewrite ShiftFacts.skip_blank_shift, skip_blank_spec, Hbr
      by (rewrite length_app; cbn [length]; rewrite length_app; lia).
    cbn [fmap length]. f_equal. lia. }
  cbn [bind].
  assert (no_value_date L (length (bd :: blanks) + 0) = Ok false) as ->.
  { rewrite E2, ShiftFacts.no_value_date_shift.
    unfold no_value_date. cbn [length Nat.leb bind get nth_error].
    now rewrite Hv. }
  cbn [bind].
  assert (get L (length (bd :: blanks) + 0) = Ok vd) as ->
    by (now rewrite E2, ShiftFacts.get_shift).
  cbn [bind].
  assert (collect_body fuel L (length (bd :: blanks) + 0 + 1) [] None =
          Ok (text_lines body,
              match last_money body with
              | Some a => Some (strip a)
              | None => None
              end,
              length (bd :: blanks ++ vd :: body) + 0)) as ->.
  { rewrite E3.
    replace (length (bd :: blanks) + 0 + 1)
      with (length (bd :: blanks ++ [vd]) + 0)
      by (cbn [length]; rewrite length_app; cbn [length]; lia).
    rewrite ShiftFacts.collect_body_shift, collect_body_spec, Hbb
      by (rewrite length_app; lia).
    cbn [fmap app]. do 2 f_equal.
    cbn [length]. rewrite !length_app. cbn [length]. lia. }
  cbn [bind].
  rewrite E4, ShiftFacts.scan_shift. unfold out.
  apply ShiftFacts.scan_fuel; lia.
Qed.

Lemma marker_no_date (l : string) :
  is_marker l = true -> is_date_token l = false.
Proof.
  unfold is_marker, markers. cbn [existsb]. intros H.
  repeat (apply orb_prop in H; destruct H as [H | H];
          [apply String.eqb_eq in H; subst l; reflexivity|]).
  discriminate H.
Qed.

End BlockSplit.

Module PrefixFacts.

(** Lines without a date token in front of the rest are passed over. *)
Lemma scan_prefix (pre xs : list string) (acc : list Transaction)
    (fuel i : nat) :
  Forall (fun l => is_date_token l = false) pre ->
  i <= length pre ->
  length (pre ++ xs) - i < fuel ->
  Raw.scan fuel (pre ++ xs) i acc = Raw.scan (S (length xs)) xs 0 acc.
Proof.
  intros Hpre. set (out := Raw.scan (S (length xs)) xs 0 acc).
  revert i. induction fuel as [|fuel IH]; intros i Hi Hf; [lia|].
  rewrite length_app in Hf.
  destruct (Nat.eq_dec i (length pre)) as [-> | Hne].
  - replace (Raw.scan (S fuel) (pre ++ xs) (length pre) acc)
      with (Raw.scan (S fuel) (pre ++ xs) (length pre + 0) acc)
      by (now rewrite Nat.add_0_r).
    rewrite ShiftFacts.scan_shift. unfold out.
    apply ShiftFacts.scan_fuel; lia.
  - cbn [Raw.scan].
    assert ((i <? length (pre ++ xs)) = true) as ->
      by (apply Nat.ltb_lt; rewrite length_app; lia).
    destruct (get_lt pre i) as (l & _ & Hn); [lia|].
    assert (get (pre ++ xs) i = Ok l) as ->.
    { apply get_Ok. rewrite nth_error_app1 by lia. exact Hn. }
    cbn [bind]. rewrite Forall_forall in Hpre.
    rewrite (Hpre l (nth_error_In _ _ Hn)).
    apply IH; [lia|rewrite length_app; lia].
Qed.

End PrefixFacts.

(** X13: the scan works block by block.  When the lines of a text are a
    booking date, empty lines, a value date, body lines, and then the
    lines of another text that starts with a date token or a marker, the
    parser returns the transaction of that block (if it is complete)
    followed by the transactions of the other text. *)
Theorem X13_block_then_rest (text text' bd vd : string)
    (blanks body : list string) :
  py_lines text = bd :: blanks ++ vd :: body ++ py_lines text' ->
  is_date_token bd = true ->
  is_date_token vd = true ->
  Forall (fun l => l = EmptyString) blanks ->
  Forall body_line body ->
  (exists y r, py_lines text' = y :: r /\
               is_date_token y || is_marker y = true) ->
  exists ts',
    Raw.extract_transactions text' = Ok ts' /\
    Raw.extract_transactions text =
      Ok (Raw.emit [] bd vd (text_lines body) (last_money body) ++ ts').
Proof.
  intros Hl Hb Hv Hblanks Hbody Hnext.
  destruct (raw_extract_total text') as (ts' & Hts' & _).
  exists ts'. split; [exact Hts'|].
  unfold Raw.extract_transactions, Raw.extract_transactions_fuel.
  rewrite Hl, BlockSplit.scan_block; try assumption; try lia.
  - rewrite ShiftFacts.scan_acc.
    unfold Raw.extract_transactions, Raw.extract_transactions_fuel in Hts'.
    rewrite Hts'. cbn [fmap].
    destruct (last_money body) as [a|] eqn:Ha; [|reflexivity].
    apply last_money_In in Ha. destruct Ha as [Hin _].
    rewrite (py_lines_stripped text a); [reflexivity|].
    rewrite Hl. right. apply in_or_app. right. right.
    apply in_or_app. now left.
  - eapply Forall_impl; [|exact Hblanks]. now intros l ->.
  - right. exact Hnext.
Qed.

Lemma X13_block_then_rest_witness :
  let text := unlines ["12/16"; EmptyString; "12/17"; "Card payment"; "- 45.00";
                       "01/05"; "01/06"; "Salary"; "+ 1,109.68"] in
  let text' := unlines ["01/05"; "01/06"; "Salary"; "+ 1,109.68"] in
  py_lines text =
    "12/16" :: [EmptyString] ++ "12/17" :: ["Card payment"; "- 45.00"]
      ++ py_lines text' /\
  (exists y r, py_lines text' = y :: r /\
               is_date_token y || is_marker y = true) /\
  Raw.extract_transactions text =
    Ok [mkTransaction "12/16" "12/17" "Card payment" "- 45.00";
        mkTransaction "01/05" "01/06" "Salary" "+ 1,109.68"].
Proof.
  cbv zeta.
  assert (exists y r,
            py_lines (unlines ["01/05"; "01/06"; "Salary"; "+ 1,109.68"])
              = y :: r /\ is_date_token y || is_marker y = true) as Hnext
    by (exists "01/05", ["01/06"; "Salary"; "+ 1,109.68"]; now split).
  split; [reflexivity|]. split; [exact Hnext|].
  destruct (X13_block_then_rest
              (unlines ["12/16"; EmptyString; "12/17"; "Card payment";
                        "- 45.00"; "01/05"; "01/06"; "Salary"; "+ 1,109.68"])
              (unlines ["01/05"; "01/06"; "Salary"; "+ 1,109.68"])
              "12/16" "12/17" [EmptyString] ["Card payment"; "- 45.00"]
              eq_refl eq_refl eq_refl)
    as (ts' & Hts' & H); try exact Hnext.
  - now repeat constructor.
  - now repeat constructor.
  - rewrite H. vm_compute in Hts'. injection Hts' as <-. reflexivity.
Defined.

(** X14: whatever stands before the first date token is passed over: when
    the lines of a text are lines without a date token followed by the
    lines of another text, the parser returns what it returns for the
    other text. *)
Theorem X14_header_ignored (text text' : string) (header : list string) :
  py_lines text = header ++ py_lines text' ->
  Forall (fun l => is_date_token l = false) header ->
  Raw.extract_transactions text = Raw.extract_transactions text'.
Proof.
  intros Hl Hh.
  unfold Raw.extract_transactions, Raw.extract_transactions_fuel.
  rewrite Hl. apply PrefixFacts.scan_prefix; [exact Hh|lia|lia].
Qed.

Lemma X14_header_ignored_witness :
  let text := unlines ["Account statement"; "- 45.00"; "Statement Page";
                       "12/16"; "12/17"; "Card payment"; "- 45.00"] in
  let text' := unlines ["12/16"; "12/17"; "Card payment"; "- 45.00"] in
  py_lines text =
    ["Account statement"; "- 45.00"; "Statement Page"] ++ py_lines text' /\
  Forall (fun l => is_date_token l = false)
    ["Account statement"; "- 45.00"; "Statement Page"] /\
  Raw.extract_transactions text = Raw.extract_transactions text'.
Proof.
  cbv zeta.
  assert (Forall (fun l => is_date_token l = false)
            ["Account statement"; "- 45.00"; "Statement Page"]) as Hh
    by now repeat constructor.
  split; [reflexivity|]. split; [exact Hh|].
  exact (X14_header_ignored
           (unlines ["Account statement"; "- 45.00"; "Statement Page";
                     "12/16"; "12/17"; "Card payment"; "- 45.00"])
           (unlines ["12/16"; "12/17"; "Card payment"; "- 45.00"])
           ["Account statement"; "- 45.00"; "Statement Page"] eq_refl Hh).
Defined.

(** X15: a marker line closes the block: what follows it, up to the next
    date token, belongs to no transaction, so an amount or a text line
    after "Statement Page", "Branch number", "New balance", "Important
    notes" or "German bank code" is not taken into the block before it. *)
Theorem X15_marker_closes_block (text bd vd mk : string)
    (blanks body tail : list string) :
  py_lines text = bd :: blanks ++ vd :: body ++ mk :: tail ->
  is_date_token bd = true ->
  is_date_token vd = true ->
  Forall (fun l => l = EmptyString) blanks ->
  Forall body_line body ->
  is_marker mk = true ->
  Forall (fun l => is_date_token l = false) tail ->
  Raw.extract_transactions text =
    Ok (Raw.emit [] bd vd (text_lines body) (last_money body)).
Proof.
  intros Hl Hb Hv Hblanks Hbody Hmk Htail.
  unfold Raw.extract_transactions, Raw.extract_transactions_fuel.
  rewrite Hl, BlockSplit.scan_block; try assumption; try lia.
  - rewrite RawFacts.scan_no_dates; [|intros l [<- | Hin]|lia].
    + destruct (last_money body) as [a|] eqn:Ha; [|reflexivity].
      apply last_money_In in Ha. destruct Ha as [Hin _].
      rewrite (py_lines_stripped text a); [reflexivity|].
      rewrite Hl. right. apply in_or_app. right. right.
      apply in_or_app. now left.
    + now apply BlockSplit.marker_no_date.
    + rewrite Forall_forall in Htail. now apply Htail.
  - eapply Forall_impl; [|exact Hblanks]. now intros l ->.
  - right. exists mk, tail. split; [reflexivity|].
    unfold ends_body. now rewrite Hmk, orb_true_r.
Qed.

Lemma X15_marker_closes_block_witness :
  let text := unlines ["12/16"; "12/17"; "Card payment"; "- 45.00";
                       "Statement Page"; "Page total"; "1,200.00"] in
  py_lines text =
    "12/16" :: [] ++ "12/17" :: ["Card payment"; "- 45.00"]
      ++ "Statement Page" :: ["Page total"; "1,200.00"] /\
  is_marker "Statement Page" = true /\
  Raw.extract_transactions text =
    Ok [mkTransaction "12/16" "12/17" "Card payment" "- 45.00"].
Proof.
  cbv zeta. split; [reflexivity|]. split; [reflexivity|].
  apply (X15_marker_closes_block
           (unlines ["12/16"; "12/17"; "Card payment"; "- 45.00";
                     "Statement Page"; "Page total"; "1,200.00"])
           "12/16" "12/17" "Statement Page" []
           ["Card payment"; "- 45.00"] ["Page total"; "1,200.00"]
           eq_refl eq_refl eq_refl); now repeat constructor.
Defined.

(** * The loop of [main] *)

Module MainFacts.

(** Metadata and parser never fail one after the other. *)
Lemma pipeline_total (t : string) : exists r, statement_of t r.
Proof.
  destruct (raw_extract_total t) as (ts & Hts & _).
  destruct (PipelineFacts.period_years (py_lines t) (py_lines t) 0)
    as [(yf & Hf) (yt & Ht)].
  exists (DatedSteps.loop (py_lines t) 0 (py_lines t) Dated.empty,
          map (redate
                 (Dated.period_from
                    (DatedSteps.loop (py_lines t) 0 (py_lines t) Dated.empty))
                 (Dated.period_to
                    (DatedSteps.loop (py_lines t) 0 (py_lines t) Dated.empty)))
              ts).
  split; cbn [fst snd]; [apply dated_metadata_Ok|].
  unfold Dated.extract_transactions.
  rewrite dated_extract_redate, Hf, Ht. cbn [bind].
  fold (Raw.extract_transactions t). now rewrite Hts.
Qed.

Lemma process_acc (texts : list (option string))
    (at0 : list Transaction) (as0 : list Dated.Metadata) :
  exists rs,
    Forall2 statement_of (kept texts) rs /\
    DatedMain.process texts at0 as0 =
      Ok (at0 ++ concat (map snd rs), as0 ++ map fst rs).
Proof.
  revert at0 as0. induction texts as [|o rest IH]; intros at0 as0.
  - exists []. split; [constructor|]. cbn. now rewrite !app_nil_r.
  - cbn [DatedMain.process kept flat_map].
    destruct o as [t|]; cbn [truthy_opt]; [|apply IH].
    destruct (truthy t); [|apply IH].
    destruct (pipeline_total t) as ([m ts] & Hm & Hts).
    cbn [fst snd] in Hm, Hts. rewrite Hm. cbn [bind]. rewrite Hts.
    cbn [bind].
    destruct (IH (at0 ++ ts) (as0 ++ [m])) as (rs & Hrs & ->).
    exists ((m, ts) :: rs). split.
    + cbn [app]. constructor; [now split|exact Hrs].
    + cbn [map concat fst snd]. now rewrite <- !app_assoc.
Qed.

End MainFacts.

(** X16: the loop of [main] in [src/_src/extract_with_ocr.py] never
    raises, whatever the OCR returned: files whose OCR failed or gave no
    text are skipped, every other text contributes one metadata record
    and its transactions, parsed with the period of that record, and both
    lists keep the order of the files. *)
Theorem X16_main_loop_completes (texts : list (option string)) :
  exists rs,
    Forall2 statement_of (kept texts) rs /\
    DatedMain.process texts [] [] = Ok (concat (map snd rs), map fst rs).
Proof.
  destruct (MainFacts.process_acc texts [] []) as (rs & Hrs & H).
  exists rs. split; [exact Hrs|exact H].
Qed.

(** * From the period line to the dates of the transactions *)

Module ChainFacts.




End ChainFacts.


(** * A label is no amount *)

Module LabelFacts.

Lemma spaces_all (p : ascii -> bool) (s : string) :
  (forall c, is_space c = true -> p c = true) ->
  all_chars p (spaces s) = true -> all_chars p s = true.
Proof.
  intros Hp. induction s as [|c r IH]; cbn [spaces]; [trivial|].
  destruct (is_space c) eqn:E; [|trivial].
  intros H. cbn [all_chars]. now rewrite (Hp c E), (IH H).
Qed.

Lemma digits_commas_all (p : ascii -> bool) (s : string) :
  (forall c, is_digit c || Ascii.eqb c "," = true -> p c = true) ->
  all_chars p (digits_commas s) = true -> all_chars p s = true.
Proof.
  intros Hp. induction s as [|c r IH]; cbn [digits_commas]; [trivial|].
  destruct (is_digit c || Ascii.eqb c ",") eqn:E; [|trivial].
  intros H. cbn [all_chars]. now rewrite (Hp c E), (IH H).
Qed.

Lemma money_char_space (c : ascii) : is_space c = true -> money_char c = true.
Proof.
  intros H. unfold money_char. rewrite H. now rewrite orb_true_r.
Qed.

Lemma money_char_digit_comma (c : ascii) :
  is_digit c || Ascii.eqb c "," = true -> money_char c = true.
Proof.
  intros H. unfold money_char. apply orb_prop in H.
  destruct H as [-> | ->]; [reflexivity|]. now rewrite !orb_true_r.
Qed.

(** A money token is made of digits, commas, a dot, a sign and white
    space only. *)
Lemma money_token_chars (s : string) :
  is_money_token s = true -> all_chars money_char s = true.
Proof.
  unfold is_money_token. intros H.
  assert (all_chars money_char (opt_sign s) = true) as Hs.
  { apply spaces_all; [exact money_char_space|].
    destruct (spaces (opt_sign s)) as [|c r]; [discriminate H|].
    cbn [digits_commas1] in H.
    destruct (is_digit c || Ascii.eqb c ",") eqn:Ec; [|discriminate H].
    cbn [all_chars]. rewrite (money_char_digit_comma c Ec). cbn [andb].
    apply digits_commas_all; [exact money_char_digit_comma|].
    destruct (digits_commas r) as [|p [|a [|b t]]]; try discriminate H.
    do 3 (apply andb_prop in H; destruct H as [H ?]).
    apply Ascii.eqb_eq in H. subst p.
    cbn [all_chars]. unfold money_char at 1 2 3.
    match goal with Ha : is_digit a = true |- _ => rewrite Ha end.
    match goal with Hb : is_digit b = true |- _ => rewrite Hb end.
    cbn [orb andb Ascii.eqb Bool.eqb is_digit].
    destruct t as [|n [|n' t']]; [reflexivity| |discriminate].
    match goal with Hend : at_end _ = true |- _ =>
      cbn in Hend; apply Ascii.eqb_eq in Hend; subst n end.
    reflexivity. }
  destruct s as [|c r]; [reflexivity|]. cbn [opt_sign] in Hs.
  destruct (Ascii.eqb c "-" || Ascii.eqb c "+") eqn:Ec; [|exact Hs].
  cbn [all_chars]. rewrite Hs, andb_true_r. unfold money_char.
  apply orb_prop in Ec. destruct Ec as [-> | ->]; now rewrite !orb_true_r.
Qed.

Lemma prefix_head (c : ascii) (n hay : string) :
  prefix (String c n) hay = true -> has_char c hay = true.
Proof.
  destruct hay as [|x r]; cbn [prefix]; [discriminate|].
  destruct (ascii_dec c x) as [-> | _]; [|discriminate].
  intros _. cbn [has_char]. now rewrite Ascii.eqb_refl.
Qed.

Lemma contains_head (c : ascii) (n hay : string) :
  contains (String c n) hay = true -> has_char c hay = true.
Proof.
  induction hay as [|x r IH].
  - cbn. discriminate.
  - change (contains (String c n) (String x r))
      with (prefix (String c n) (String x r) || contains (String c n) r).
    intros H. apply orb_prop in H. destruct H as [H | H].
    + exact (prefix_head _ _ _ H).
    + cbn [has_char]. now rewrite (IH H), orb_true_r.
Qed.

Lemma lower_has_char (c : ascii) (l : string) :
  has_char c (lower l) = true ->
  exists x, has_char x l = true /\ lower_char x = c.
Proof.
  induction l as [|y r IH]; cbn [lower has_char]; [discriminate|].
  intros H. apply orb_prop in H. destruct H as [H | H].
  - apply Ascii.eqb_eq in H. exists y. split; [|exact H].
    now rewrite Ascii.eqb_refl.
  - destruct (IH H) as (x & Hx & Hl). exists x. split; [|exact Hl].
    now rewrite Hx, orb_true_r.
Qed.

Lemma all_chars_has (p : ascii -> bool) (x : ascii) (s : string) :
  all_chars p s = true -> has_char x s = true -> p x = true.
Proof.
  induction s as [|c r IH]; cbn [all_chars has_char]; [discriminate 2|].
  intros Hall H. apply andb_prop in Hall. destruct Hall as [Hc Hr].
  apply orb_prop in H. destruct H as [H | H]; [|now apply IH].
  apply Ascii.eqb_eq in H. now subst c.
Qed.

Lemma letter_p_no_money (x : ascii) :
  lower_char x = "p"%char -> money_char x = false.
Proof.
  destruct x as [[] [] [] [] [] [] [] []]; intros H; vm_compute in H;
    try discriminate H; reflexivity.
Qed.

Lemma letter_b_no_money (x : ascii) :
  lower_char x = "b"%char -> money_char x = false.
Proof.
  destruct x as [[] [] [] [] [] [] [] []]; intros H; vm_compute in H;
    try discriminate H; reflexivity.
Qed.

Lemma label_no_money (l : string) :
  RawSteps.opening_label l = true -> is_money_token l = false.
Proof.
  unfold RawSteps.opening_label. intros H.
  destruct (is_money_token l) eqn:Hm; [|reflexivity].
  apply money_token_chars in Hm.
  apply orb_prop in H. destruct H as [H | H];
    apply contains_head, lower_has_char in H;
    destruct H as (x & Hx & Hl);
    pose proof (all_chars_has _ _ _ Hm Hx) as Hmoney.
  - now rewrite (letter_p_no_money x Hl) in Hmoney.
  - now rewrite (letter_b_no_money x Hl) in Hmoney.
Qed.

End LabelFacts.

(** X18: in [src/extract_with_ocr.py] the search for the opening balance
    starts at the label line itself, but a line containing "previous
    balance" or "balance as at" holds a letter and is no money token: the
    balance is always looked for in the four lines after the label. *)
Theorem X18_raw_label_is_no_amount (text : string) (i : nat) (l : string) :
  nth_error (py_lines text) i = Some l ->
  contains "previous balance" (lower l)
  || contains "balance as at" (lower l) = true ->
  is_money_token l = false /\
  find is_money_token (window (py_lines text) i 5) =
  find is_money_token (window (py_lines text) (i + 1) 4).
Proof.
  intros Hn Hl. pose proof (LabelFacts.label_no_money l Hl) as Hm.
  split; [exact Hm|].
  unfold window. rewrite (skipn_nth _ _ _ Hn). cbn [firstn find].
  now rewrite Hm, Nat.add_1_r.
Qed.

Lemma X18_raw_label_is_no_amount_witness :
  let text := unlines ["Previous balance"; "EUR"; "1,200.00"] in
  nth_error (py_lines text) 0 = Some "Previous balance" /\
  contains "previous balance" (lower "Previous balance")
  || contains "balance as at" (lower "Previous balance") = true /\
  is_money_token "Previous balance" = false /\
  find is_money_token (window (py_lines text) 0 5) =
  find is_money_token (window (py_lines text) (0 + 1) 4).
Proof.
  split; [reflexivity|]. split; [reflexivity|].
  exact (X18_raw_label_is_no_amount
           (unlines ["Previous balance"; "EUR"; "1,200.00"])
           0 "Previous balance" eq_refl eq_refl).
Defined.

(** * The order of the transactions *)

Module OrderFacts.




End OrderFacts.

